(** * Agent wrappers of ndtands/agent_practices: status envelopes, stream
      filtering, the routing registry and the executors' event translation.

    The agents are thin shims around an orchestration framework.  The
    framework is not part of the repository, so every call into it appears
    here as an explicit outcome handed to the embedded function: the list of
    items a stream produced and the exception that ended it (if any), the
    state snapshot returned by [get_state], the answer of a transport.  The
    repository's own logic (dictionary construction, event-name dispatch,
    registry bookkeeping, status translation) is embedded as executable
    functions over a small universe of Python values. *)

From stdpp Require Import base option list strings gmap.
From Stdlib Require Import ZArith.

Local Open Scope string_scope.
Set Warnings "-register-all".

(** ** Python values *)

(** Classes of langchain messages the code tests with [isinstance].
    [AIMessageChunk] is a subclass of [AIMessage]. *)
Inductive msg_class :=
  | HumanMessage | SystemMessage | AIMessage | AIMessageChunk | ToolMessage.

(** The values the wrappers handle.  A [PDict] is a string-keyed dictionary in
    insertion order; [PResponse] is an instance of the pydantic model
    [ResponseFormat] (fields [status] and [message]); [PMessage] is a
    langchain message with its [content] and [tool_calls]. *)
Inductive pyval :=
  | PNone
  | PBool (b : bool)
  | PInt (n : Z)
  | PStr (s : string)
  | PList (l : list pyval)
  | PDict (d : list (string * pyval))
  | PResponse (status message : string)
  | PMessage (cls : msg_class) (content : pyval) (tool_calls : list pyval).

Abbreviation pydict := (list (string * pyval)).

(** Truth value testing ([if v], [not v], [v and ...]).  Instances of pydantic
    models and of messages define neither [__bool__] nor [__len__]. *)
Definition truthy (v : pyval) : bool :=
  match v with
  | PNone => false
  | PBool b => b
  | PInt n => negb (n =? 0)%Z
  | PStr s => negb (s =? "")
  | PList l => match l with [] => false | _ => true end
  | PDict d => match d with [] => false | _ => true end
  | PResponse _ _ => true
  | PMessage _ _ _ => true
  end.

(** [v == 'literal'] for a string literal. *)
Definition eq_str (v : pyval) (s : string) : bool :=
  match v with PStr s' => s' =? s | _ => false end.

Definition is_str (v : pyval) : bool :=
  match v with PStr _ => true | _ => false end.

Definition is_bool (v : pyval) : bool :=
  match v with PBool _ => true | _ => false end.

(** [isinstance(v, AIMessage)], [isinstance(v, AIMessageChunk)],
    [isinstance(v, ToolMessage)], [isinstance(v, ResponseFormat)]. *)
Definition isinstance_AIMessage (v : pyval) : bool :=
  match v with
  | PMessage AIMessage _ _ | PMessage AIMessageChunk _ _ => true
  | _ => false
  end.

Definition isinstance_AIMessageChunk (v : pyval) : bool :=
  match v with PMessage AIMessageChunk _ _ => true | _ => false end.

Definition isinstance_ToolMessage (v : pyval) : bool :=
  match v with PMessage ToolMessage _ _ => true | _ => false end.

Definition isinstance_ResponseFormat (v : pyval) : bool :=
  match v with PResponse _ _ => true | _ => false end.

(** ** Dictionaries *)

Module Dict.

(** [d.get(k)] without default: [None] of Python is [None] here. *)
Fixpoint lookup (k : string) (d : pydict) : option pyval :=
  match d with
  | [] => None
  | (k', v) :: d' => if k' =? k then Some v else lookup k d'
  end.

(** [d.get(k, dflt)]. *)
Definition get (k : string) (dflt : pyval) (d : pydict) : pyval :=
  default dflt (lookup k d).

(** [list(d.keys())]. *)
Definition keys (d : pydict) : list string := d.*1.

(** [list(d.values())]. *)
Definition values {V} (d : list (string * V)) : list V := d.*2.

(** [d[k] = v] on an insertion-ordered dictionary: an existing key keeps
    its position and takes the new value, a new key goes last. *)
Fixpoint set {V} (k : string) (v : V) (d : list (string * V))
  : list (string * V) :=
  match d with
  | [] => [(k, v)]
  | (k', v') :: d' => if k' =? k then (k, v) :: d' else (k', v') :: set k v d'
  end.

End Dict.

(** ** Exceptions and generators *)

(** An instance of a subclass of [Exception]: its class name and [str(e)].
    [BaseException]s that are not [Exception]s (task cancellation,
    interpreter exit) are outside the model. *)
Record exn := Exn { exn_class : string; exn_str : string }.

Inductive result (A : Type) :=
  | Ok (a : A)
  | Raise (e : exn).
Arguments Ok {A} a.
Arguments Raise {A} e.

Definition bind {A B} (r : result A) (k : A -> result B) : result B :=
  match r with Ok a => k a | Raise e => Raise e end.

Notation "x <- r ;; k" := (bind r (fun x => k))
  (at level 100, r at next level, right associativity).

(** [try: r  except Exception as e: h e]. *)
Definition try_except {A} (r : result A) (h : exn -> A) : A :=
  match r with Ok a => a | Raise e => h e end.

(** A finished run of a generator: the values it yielded, in order, and the
    exception that ended it, if one did. *)
Record gen (A : Type) := Gen { yielded : list A; raised : option exn }.
Arguments Gen {A} yielded raised.
Arguments yielded {A} g.
Arguments raised {A} g.

Module G.

Definition stop {A} : gen A := Gen [] None.
Definition yield {A} (a : A) : gen A := Gen [a] None.
Definition throw {A} (e : exn) : gen A := Gen [] (Some e).

(** Sequential composition: [g2] runs only when [g1] ended normally. *)
Definition seq {A} (g1 g2 : gen A) : gen A :=
  match raised g1 with
  | Some e => g1
  | None => Gen (yielded g1 ++ yielded g2) (raised g2)
  end.

(** A computation that yields nothing but may raise, then a generator. *)
Definition lift {A B} (r : result A) (k : A -> gen B) : gen B :=
  match r with Ok a => k a | Raise e => throw e end.

(** [for x in src: body x], where the source itself may raise after its
    last item. *)
Fixpoint for_each {A B} (items : list A) (body : A -> gen B) : gen B :=
  match items with
  | [] => stop
  | x :: items' => seq (body x) (for_each items' body)
  end.

Definition for_in {A B} (src : gen A) (body : A -> gen B) : gen B :=
  seq (for_each (yielded src) body)
      (match raised src with Some e => throw e | None => stop end).

(** [try: g  except Exception as e: h e] inside a generator: what [g]
    yielded before raising stays yielded. *)
Definition catch {A} (g : gen A) (h : exn -> gen A) : gen A :=
  match raised g with
  | Some e => Gen (yielded g ++ yielded (h e)) (raised (h e))
  | None => g
  end.

End G.

(** ** The status envelope *)

(** The dictionary literal
    [{'is_task_complete': c, 'require_user_input': r, 'content': x}]. *)
Definition envelope (c r : bool) (x : pyval) : pydict :=
  [("is_task_complete", PBool c); ("require_user_input", PBool r);
   ("content", x)].

Definition envelope_keys : list string :=
  ["is_task_complete"; "require_user_input"; "content"].

(** ** Subscripting and attribute access, with the exceptions they raise *)

Definition KeyError (k : string) : exn := Exn "KeyError" ("'" +:+ k +:+ "'").
Definition IndexError (what : string) : exn :=
  Exn "IndexError" (what +:+ " index out of range").
Definition TypeError (msg : string) : exn := Exn "TypeError" msg.
Definition AttributeError (attr : string) : exn :=
  Exn "AttributeError" ("object has no attribute '" +:+ attr +:+ "'").

(** [v[k]] for a string key [k]. *)
Definition getitem (v : pyval) (k : string) : result pyval :=
  match v with
  | PDict d =>
      match Dict.lookup k d with
      | Some x => Ok x
      | None => Raise (KeyError k)
      end
  | _ => Raise (TypeError "indices must be integers or the object is not subscriptable")
  end.

Fixpoint last_char (s : string) : string :=
  match s with
  | EmptyString => EmptyString
  | String c EmptyString => String c EmptyString
  | String _ s' => last_char s'
  end.

(** [v[-1]]. *)
Definition index_last (v : pyval) : result pyval :=
  match v with
  | PList l =>
      match last l with
      | Some x => Ok x
      | None => Raise (IndexError "list")
      end
  | PStr s =>
      if s =? "" then Raise (IndexError "string") else Ok (PStr (last_char s))
  | PDict _ => Raise (Exn "KeyError" "-1")
  | _ => Raise (TypeError "object is not subscriptable")
  end.

(** [message.tool_calls] and [message.content]. *)
Definition tool_calls_of (v : pyval) : list pyval :=
  match v with PMessage _ _ tcs => tcs | _ => [] end.

Definition content_of (v : pyval) : pyval :=
  match v with PMessage _ c _ => c | _ => PNone end.

(** ** CurrencyAgent (src/langgraph/app/agent/__init__.py) *)

Module CurrencyAgent.

Definition retry_message : string :=
  "We are unable to process your request at the moment. Please try again.".

(** [get_agent_response].  [get_state] is the outcome of
    [self.graph.get_state(config)]: the [values] dictionary of the snapshot,
    or the exception the framework raised. *)
Definition get_agent_response (get_state : result pydict) : result pydict :=
  current_state_values <- get_state ;;
  let structured_response :=
    Dict.get "structured_response" PNone current_state_values in
  Ok
    match structured_response with
    | PResponse status message =>
        if status =? "input_required" then
          envelope false true (PStr message)
        else if status =? "error" then
          envelope false true (PStr message)
        else if status =? "completed" then
          envelope true false (PStr message)
        else
          envelope false true (PStr retry_message)
    | _ => envelope false true (PStr retry_message)
    end.

(** [item['messages'][-1]]. *)
Definition last_message (item : pyval) : result pyval :=
  messages <- getitem item "messages" ;;
  index_last messages.

(** The body of the [for item in self.graph.stream(...)] loop. *)
Definition stream_item (item : pyval) : gen pydict :=
  G.lift (last_message item) (fun message =>
    if isinstance_AIMessage message
       && truthy (PList (tool_calls_of message))
       && (0 <? length (tool_calls_of message))%nat
    then G.yield (envelope false false (PStr "Looking up the exchange rates..."))
    else if isinstance_ToolMessage message
    then G.yield (envelope false false (PStr "Processing the exchange rates.."))
    else G.stop).

(** [stream].  [graph_stream] is the finished run of
    [self.graph.stream(inputs, config, stream_mode='values')]. *)
Definition stream (graph_stream : gen pyval) (get_state : result pydict)
  : gen pydict :=
  G.seq (G.for_in graph_stream stream_item)
        (G.lift (get_agent_response get_state) G.yield).

End CurrencyAgent.

(** ** More of the Python runtime: [get] on any object, [join], formatting *)

Definition is_dict (v : pyval) : bool :=
  match v with PDict _ => true | _ => false end.

Definition is_list (v : pyval) : bool :=
  match v with PList _ => true | _ => false end.

(** [v.get(k, dflt)]: a dictionary method; other values have no [get]. *)
Definition get_method (v : pyval) (k : string) (dflt : pyval) : result pyval :=
  match v with
  | PDict d => Ok (Dict.get k dflt d)
  | _ => Raise (AttributeError "get")
  end.

Definition newline : string := String (Ascii.ascii_of_nat 10) EmptyString.
Definition dquote : string := String (Ascii.ascii_of_nat 34) EmptyString.

Fixpoint join (sep : string) (l : list string) : string :=
  match l with
  | [] => ""
  | [x] => x
  | x :: l' => x +:+ sep +:+ join sep l'
  end.

(** [sep.join(parts)]: every item has to be a [str]. *)
Fixpoint strings_of (parts : list pyval) : result (list string) :=
  match parts with
  | [] => Ok []
  | PStr x :: parts' => xs <- strings_of parts' ;; Ok (x :: xs)
  | _ :: _ => Raise (TypeError "sequence item: expected str instance")
  end.

Definition str_join (sep : string) (parts : list pyval) : result string :=
  xs <- strings_of parts ;; Ok (join sep xs).

(** [f"{v}"]: a [str] is inserted as it is; for any other value Python
    inserts its [repr]-like rendering, which is taken as a parameter. *)
Definition format_value (render : pyval -> string) (v : pyval) : string :=
  match v with PStr x => x | _ => render v end.

(** ** WeatherAgent (src/multiple_agents/weather_agent/agent.py) *)

Module WeatherAgent.

Definition SYSTEM_INSTRUCTION : string :=
  newline +:+
  "    You are a specialized weather forecast assistant. Your primary function is to utilize the provided tools to retrieve and relay weather information in response to user queries. You must rely exclusively on these tools for data and refrain from inventing information. Ensure that all responses include the detailed output from the tools used and are formatted in Markdown."
  +:+ newline +:+ "    ".

Definition RESPONSE_FORMAT_INSTRUCTION : string :=
  "Select status as " +:+ dquote +:+ "completed" +:+ dquote +:+
  " if the request is fully addressed and no further input is needed. " +:+
  "Select status as " +:+ dquote +:+ "input_required" +:+ dquote +:+
  " if you need more information from the user or are asking a clarifying question. " +:+
  "Select status as " +:+ dquote +:+ "error" +:+ dquote +:+
  " if an error occurred or the request cannot be fulfilled.".

(** What [__init__] asks of the framework, in order: a checkpoint store
    and the reactive agent graph over the tools. *)
Inductive framework_call :=
  | MemorySaver
  | create_react_agent (tools : pyval) (prompt response_format : string).

Record t := Agent { mcp_tools : pyval; agent_runnable : framework_call }.

Definition no_tools : exn :=
  Exn "ValueError" "No MCP tools provided to WeatherAgent".

(** [__init__(self, mcp_tools)], threading the log of framework
    constructions.  The argument is whatever the caller passed: a list of
    tools, or [None] when there is none.  [framework] is the outcome of each
    construction asked of the framework; the code has no handler around
    them, so what they raise comes out of the constructor. *)
Definition __init__ (framework : framework_call -> result unit)
    (mcp_tools : pyval) (log : list framework_call)
  : result t * list framework_call :=
  if negb (truthy mcp_tools) then (Raise no_tools, log)
  else
    match framework MemorySaver with
    | Raise e => (Raise e, (log ++ [MemorySaver])%list)
    | Ok _ =>
        let graph :=
          create_react_agent mcp_tools SYSTEM_INSTRUCTION
                             RESPONSE_FORMAT_INSTRUCTION in
        match framework graph with
        | Raise e => (Raise e, (log ++ [MemorySaver; graph])%list)
        | Ok _ =>
            (Ok (Agent mcp_tools graph), (log ++ [MemorySaver; graph])%list)
        end
    end.

(** [_format_error_response]. *)
Definition _format_error_response (message : string) : pydict :=
  envelope true false (PStr message).

(** The comprehension
    [[part['text'] for part in content
      if isinstance(part, dict) and part.get('type') == 'text']]. *)
Fixpoint text_parts (content : list pyval) : result (list pyval) :=
  match content with
  | [] => Ok []
  | part :: content' =>
      if match part with
         | PDict d => eq_str (Dict.get "type" PNone d) "text"
         | _ => false
         end
      then
        text <- getitem part "text" ;;
        rest <- text_parts content' ;;
        Ok (text :: rest)
      else text_parts content'
  end.

Definition unexpected_format : string :=
  "Unable to process request due to unexpected response format. Please try again.".

(** [state_values.get(k, dflt) if isinstance(state_values, dict)
     else getattr(state_values, k, dflt)]: none of the other values has an
    attribute [structured_response] or [messages]. *)
Definition state_field (state_values : pyval) (k : string) (dflt : pyval)
  : pyval :=
  match state_values with
  | PDict d => Dict.get k dflt d
  | _ => dflt
  end.

(** [_fallback_to_message_content]. *)
Definition _fallback_to_message_content (state_values : pyval)
  : result pydict :=
  let messages := state_field state_values "messages" (PList []) in
  let no_suitable := Ok (envelope false true (PStr unexpected_format)) in
  if truthy messages then
    last_msg <- index_last messages ;;
    if isinstance_AIMessage last_msg then
      let content := content_of last_msg in
      if is_str content && truthy content then
        Ok (envelope true false content)
      else
        match content with
        | PList parts =>
            texts <- text_parts parts ;;
            if truthy (PList texts) then
              joined <- str_join newline texts ;;
              Ok (envelope true false (PStr joined))
            else no_suitable
        | _ => no_suitable
        end
    else no_suitable
  else no_suitable.

(** [_extract_response].  [get_state] is the outcome of
    [getattr(self.agent_runnable.get_state(config), 'values', None)]. *)
Definition _extract_response (get_state : result pyval) : pydict :=
  try_except
    (state_values <- get_state ;;
     if negb (truthy state_values) then
       Ok (_format_error_response "Agent state is unavailable")
     else
       let structured_response :=
         state_field state_values "structured_response" PNone in
       match structured_response with
       | PResponse status message =>
           Ok (envelope (status =? "completed")
                        (status =? "input_required")
                        (PStr message))
       | _ => _fallback_to_message_content state_values
       end)
    (fun _ => _format_error_response "Could not retrieve agent state").

(** A framework stream event as the code reads it: [chunk.get('event')]
    and [chunk.get('data', {})], either of which may be missing; [data],
    when present, is the event's dictionary of payloads. *)
Record StreamEvent := Chunk { event : option pyval; data : option pydict }.

Section Formatting.

(** Python's rendering of a value that is not a string inside an
    f-string. *)
Variable render : pyval -> string.

(** [_process_stream_chunk]. *)
Definition _process_stream_chunk (chunk : StreamEvent) : option pydict :=
  let event_name := default PNone (event chunk) in
  let data := default [] (data chunk) in
  let content :=
    if eq_str event_name "on_tool_start" then
      PStr ("Using tool: "
            +:+ format_value render (Dict.get "name" (PStr "a tool") data)
            +:+ "...")
    else if eq_str event_name "on_chat_model_stream" then
      let message_chunk := Dict.get "chunk" PNone data in
      if isinstance_AIMessageChunk message_chunk
         && truthy (content_of message_chunk)
      then content_of message_chunk
      else PNone
    else PNone in
  if truthy content then Some (envelope false false content) else None.

(** The body of the [async for chunk in ...astream_events(...)] loop. *)
Definition astream_chunk (chunk : StreamEvent) : gen pydict :=
  match _process_stream_chunk chunk with
  | Some response =>
      if truthy (PDict response) then G.yield response else G.stop
  | None => G.stop
  end.

(** [astream].  [events] is the finished run of
    [self.agent_runnable.astream_events(...)]. *)
Definition astream (events : gen StreamEvent) (get_state : result pyval)
  : gen pydict :=
  G.catch
    (G.seq (G.for_in events astream_chunk)
           (G.yield (_extract_response get_state)))
    (fun e =>
       G.yield (_format_error_response ("Streaming error: " +:+ exn_str e))).

End Formatting.

(** [ainvoke].  [invoke] is the outcome of
    [await self.agent_runnable.ainvoke(langgraph_input, config)], whose
    return value the code drops. *)
Definition ainvoke (invoke : result unit) (get_state : result pyval)
  : pydict :=
  try_except
    (_ <- invoke ;; Ok (_extract_response get_state))
    (fun e =>
       _format_error_response ("Error processing query: " +:+ exn_str e)).

End WeatherAgent.

(** ** RouterAgent and its routing tool
       (src/multiple_agents/host_agent/routing_agent.py) *)

Module RouterAgent.

(** The advertised fields of a capability card. *)
Record AgentCard := Card { name : string; description : string }.

(** The request built from [payload] and [message_id]. *)
Record SendMessageRequest :=
  Request { request_id : pyval; role : string;
            parts : list pydict; messageId : pyval }.

(** What [send_message] hands back: [send_response.root] is either a
    success, whose [result.model_dump()] is the dictionary given here, or
    an error response, which has no [result]. *)
Inductive SendMessageResponse :=
  | SuccessResponse (result_dump : pyval)
  | ErrorResponse.

(** The [config] argument, a [RunnableConfig]: its [configurable] entry,
    when present, is a dictionary. *)
Record RunnableConfig := Config { configurable : option pydict }.

(** [for part in parts]: iterating a list gives its items, a string its
    characters, a dictionary its keys; nothing else here is iterable. *)
Fixpoint chars (s : string) : list pyval :=
  match s with
  | EmptyString => []
  | String c s' => PStr (String c EmptyString) :: chars s'
  end.

Definition iterate (v : pyval) : result (list pyval) :=
  match v with
  | PList l => Ok l
  | PStr s => Ok (chars s)
  | PDict d => Ok (PStr <$> Dict.keys d)
  | _ => Raise (TypeError "object is not iterable")
  end.

(** [[part.get('text') for part in parts]]. *)
Fixpoint part_texts (parts : list pyval) : result (list pyval) :=
  match parts with
  | [] => Ok []
  | part :: parts' =>
      text <- get_method part "text" PNone ;;
      rest <- part_texts parts' ;;
      Ok (text :: rest)
  end.

(** [config.get("configurable", {}).get("message_id", "default")]. *)
Definition message_id_of (config : RunnableConfig) : pyval :=
  let configurable := default [] (configurable config) in
  Dict.get "message_id" (PStr "default") configurable.

(** [SendMessageRequest(id=message_id,
      params=MessageSendParams.model_validate(payload))]. *)
Definition message_request (text : string) (message_id : pyval)
  : SendMessageRequest :=
  Request message_id "user"
          [[("type", PStr "text"); ("text", PStr text)]] message_id.

Section Remote.

(** The connection handle class [RemoteAgentConnections] lives in a
    module that is not among the sources; its instances, its constructor
    and its [send_message] are taken as parameters.  [resolve] is
    [A2ACardResolver(client, address).get_agent_card()]. *)
Variable connection : Type.
Variable connect : AgentCard -> string -> result connection.
Variable send_message : connection -> SendMessageRequest -> result SendMessageResponse.
Variable resolve : string -> result AgentCard.

(** The transport as the tool sees it: the log of what was sent. *)
Definition transport := list (connection * SendMessageRequest).

Definition error_dict (message : string) : pyval :=
  PDict [("error", PStr message)].

(** The part of the [try] block after a client was found. *)
Definition read_response (send_response : SendMessageResponse)
  : result pyval :=
  result_dump <-
    match send_response with
    | SuccessResponse dump => Ok dump
    | ErrorResponse => Raise (AttributeError "result")
    end ;;
  artifacts <- getitem result_dump "artifacts" ;;
  last_artifact <- index_last artifacts ;;
  parts <- get_method last_artifact "parts" PNone ;;
  items <- iterate parts ;;
  texts <- part_texts items ;;
  Ok (PList texts).

(** [send_agent_message], the tool closed over the registry
    [remote_agent_connections]. *)
Definition send_agent_message
    (remote_agent_connections : gmap string connection)
    (agent_name text : string) (config : RunnableConfig) (sent : transport)
  : pyval * transport :=
  let message_id := message_id_of config in
  let message_request := message_request text message_id in
  match remote_agent_connections !! agent_name with
  | None => (error_dict ("Agent " +:+ agent_name +:+ " not found."), sent)
  | Some client =>
      (try_except
         (send_response <- send_message client message_request ;;
          read_response send_response)
         (fun e =>
            error_dict ("Failed to send message to agent " +:+ agent_name
                        +:+ ": " +:+ exn_str e)),
       (sent ++ [(client, message_request)])%list)
  end.

(** [list_remote_agents]. *)
Definition list_remote_agents (cards : list (string * AgentCard))
  : list pydict :=
  if negb (match cards with [] => false | _ => true end) then []
  else
    (fun card => [("name", PStr (name card));
                  ("description", PStr (description card))])
      <$> Dict.values cards.

(** The state [_async_init_components] builds: the class-level registry
    and the local dictionary [cards]. *)
Record components :=
  Components { registry : gmap string connection;
               cards : list (string * AgentCard) }.

(** One turn of [for address in self.remote_agent_addresses]: both
    [except] clauses only print. *)
Definition init_address (st : components) (address : string) : components :=
  try_except
    (card <- resolve address ;;
     remote_connection <- connect card address ;;
     Ok (Components (<[name card := remote_connection]> (registry st))
                    (Dict.set (name card) card (cards st))))
    (fun _ => st).

(** [_async_init_components]: the registry the class already holds is
    extended in place; [cards] starts empty. *)
Definition _async_init_components
    (remote_agent_addresses : list string)
    (remote_agent_connections : gmap string connection) : components :=
  foldl init_address (Components remote_agent_connections [])
        remote_agent_addresses.

Section Prompt.

(** [json.dumps]. *)
Variable json_dumps : pydict -> string.

(** [self.agents_info] after [_async_init_components]. *)
Definition agents_info (st : components) : string :=
  join newline (json_dumps <$> list_remote_agents (cards st)).

End Prompt.

End Remote.

Arguments Components {connection} registry cards.
Arguments registry {connection} c.
Arguments cards {connection} c.
Arguments init_address {connection} connect resolve st address.
Arguments _async_init_components {connection} connect resolve
  remote_agent_addresses remote_agent_connections.
Arguments send_agent_message {connection} send_message
  remote_agent_connections agent_name text config sent.
Arguments agents_info {connection} json_dumps st.

End RouterAgent.

(** ** The executors (src/multiple_agents/weather_agent/agent_executor.py,
       src/helloworld/agent_executor.py) *)

Module Executor.

Local Open Scope list_scope.

Record Task := NewTask { id : string; contextId : string }.

Inductive TaskState := completed | input_required | working.

(** A message with one text part, as [new_agent_text_message] builds it. *)
Record AgentMessage :=
  TextMessage { text : string; message_context : option string;
                message_task : option string }.

Record TaskStatus :=
  Status { state : TaskState; message : option AgentMessage }.

(** An artifact with one text part, as [new_text_artifact] builds it. *)
Record Artifact :=
  TextArtifact { artifact_name : string; artifact_description : string;
                 artifact_text : string }.

(** What the protocol library raises when the text handed to one of its
    constructors is not a [str]: the text part is a validated model whose
    [text] field is a string. *)
Definition not_a_string : exn :=
  Exn "ValidationError" "Input should be a valid string".

(** [new_agent_text_message(text, context_id, task_id)] of the protocol
    library. *)
Definition new_agent_text_message (text : pyval)
    (context_id task_id : option string) : result AgentMessage :=
  match text with
  | PStr s => Ok (TextMessage s context_id task_id)
  | _ => Raise not_a_string
  end.

(** [new_text_artifact(name=..., description=..., text=...)] of the
    protocol library. *)
Definition new_text_artifact (name description : string) (text : pyval)
  : result Artifact :=
  match text with
  | PStr s => Ok (TextArtifact name description s)
  | _ => Raise not_a_string
  end.

(** What is put on the event queue. *)
Inductive queue_event :=
  | TaskCreated (task : Task)
  | MessageEvent (m : AgentMessage)
  | TaskArtifactUpdateEvent (append : bool) (context_id task_id : string)
                            (lastChunk : bool) (artifact : Artifact)
  | TaskStatusUpdateEvent (status : TaskStatus) (final : bool)
                          (context_id task_id : string).

Abbreviation EventQueue := (list queue_event).

(** The request context: [context.message], [context.current_task] and
    [context.get_user_input()]. *)
Record RequestContext :=
  Context { context_message : option pyval; current_task : option Task;
            user_input : string }.

Definition cancel_not_supported : exn := Exn "Exception" "cancel not supported".

Module HelloWorldAgentExecutor.

(** [HelloWorldAgent.ainvoke]. *)
Definition ainvoke : string := "Hello World".

Definition execute (context : RequestContext) (event_queue : EventQueue)
  : result unit * EventQueue :=
  let answer := ainvoke in
  match new_agent_text_message (PStr answer) None None with
  | Ok m => (Ok tt, event_queue ++ [MessageEvent m])
  | Raise e => (Raise e, event_queue)
  end.

Definition cancel (context : RequestContext) (event_queue : EventQueue)
  : result unit * EventQueue :=
  (Raise cancel_not_supported, event_queue).

End HelloWorldAgentExecutor.

Module WeatherAgentExecutor.

(** The body of [async for event in self.agent.astream(...)]: the events
    to enqueue for one streamed dictionary. *)
Definition translate (task : Task) (event : pydict)
  : result (list queue_event) :=
  is_task_complete <- getitem (PDict event) "is_task_complete" ;;
  if truthy is_task_complete then
    content <- getitem (PDict event) "content" ;;
    artifact <-
      new_text_artifact "current_result" "Result of request to agent."
                        content ;;
    Ok [TaskArtifactUpdateEvent false (contextId task) (id task) true artifact;
        TaskStatusUpdateEvent (Status completed None) true
          (contextId task) (id task)]
  else
    require_user_input <- getitem (PDict event) "require_user_input" ;;
    if truthy require_user_input then
      content <- getitem (PDict event) "content" ;;
      message <-
        new_agent_text_message content (Some (contextId task))
                               (Some (id task)) ;;
      Ok [TaskStatusUpdateEvent (Status input_required (Some message))
            true (contextId task) (id task)]
    else
      content <- getitem (PDict event) "content" ;;
      message <-
        new_agent_text_message content (Some (contextId task))
                               (Some (id task)) ;;
      Ok [TaskStatusUpdateEvent (Status working (Some message))
            false (contextId task) (id task)].

(** The loop over the streamed dictionaries, threading the queue. *)
Fixpoint consume (task : Task) (events : list pydict)
    (event_queue : EventQueue) : result unit * EventQueue :=
  match events with
  | [] => (Ok tt, event_queue)
  | event :: events' =>
      match translate task event with
      | Ok out => consume task events' (event_queue ++ out)
      | Raise e => (Raise e, event_queue)
      end
  end.

Section Execute.

(** [new_task(context.message)] of the protocol library. *)
Variable new_task : pyval -> Task.

(** [execute].  [astream] gives, for the query and the context id,
    the finished run of [self.agent.astream(query, task.contextId)]. *)
Definition execute (astream : string -> string -> gen pydict)
    (context : RequestContext) (event_queue : EventQueue)
  : result unit * EventQueue :=
  let query := user_input context in
  match context_message context with
  | None => (Raise (Exn "Exception" "No message provided"), event_queue)
  | Some message =>
      let '(task, event_queue) :=
        match current_task context with
        | Some task => (task, event_queue)
        | None =>
            let task := new_task message in
            (task, event_queue ++ [TaskCreated task])
        end in
      let run := astream query (contextId task) in
      match consume task (yielded run) event_queue with
      | (Ok _, event_queue) =>
          match raised run with
          | Some e => (Raise e, event_queue)
          | None => (Ok tt, event_queue)
          end
      | failed => failed
      end
  end.

End Execute.

Definition cancel (context : RequestContext) (event_queue : EventQueue)
  : result unit * EventQueue :=
  (Raise cancel_not_supported, event_queue).

End WeatherAgentExecutor.

End Executor.

(** ** The host application's chat handler
       (src/multiple_agents/host_agent/__main__.py) *)

Module HostApp.

(** What [data.get('chunk')] gives: an [AIMessageChunk] with its [content]
    and [additional_kwargs], or any other value ([None] when the entry is
    missing). *)
Inductive chunk_value :=
  | AIChunk (content : pyval) (additional_kwargs : pydict)
  | NotAIChunk (v : pyval).

(** A framework event as the handler reads it: [event['data']], which may be
    missing, and in it the [chunk] entry. *)
Record StreamEvent := Event { data : option chunk_value }.

(** [gr.ChatMessage(role=..., content=...)]. *)
Record ChatMessage := Chat { role : string; content : string }.

Definition error_message : string :=
  "An error occurred while processing your request. Please check the server logs for details.".

(** The two accumulators of the handler. *)
Record buffers := Buffers { text_content : string; tool_content : string }.

(** [content += v] for a [str] on the left. *)
Definition str_add (s : string) (v : pyval) : result string :=
  match v with
  | PStr x => Ok (s +:+ x)
  | _ => Raise (TypeError "can only concatenate str to str")
  end.

Section Formatting.

(** Python's rendering of a value that is not a string inside an
    f-string. *)
Variable render : pyval -> string.

(** The body of [async for event in agent_runnable.astream_events(...)]:
    the messages yielded for one event and the accumulators after it. *)
Definition handle_event (event : StreamEvent) (acc : buffers)
  : result (list ChatMessage * buffers) :=
  match data event with
  | None => Raise (KeyError "data")
  | Some (NotAIChunk _) => Ok ([], acc)
  | Some (AIChunk chunk_content additional_kwargs) =>
      if truthy (PDict additional_kwargs) then
        tool_call <- index_last (Dict.get "tool_calls" PNone additional_kwargs) ;;
        id <- get_method tool_call "id" PNone ;;
        function <- get_method tool_call "function" PNone ;;
        tool_content <-
          (if truthy id then
             function_name <- get_method function "name" PNone ;;
             Ok (tool_content acc
                 +:+ newline +:+ newline +:+ "🛠️ **Tool Call: "
                 +:+ format_value render function_name
                 +:+ "**" +:+ newline)
           else
             arguments <- get_method function "arguments" PNone ;;
             Ok (tool_content acc +:+ format_value render arguments)) ;;
        Ok ([Chat "assistant" tool_content],
            Buffers (text_content acc) tool_content)
      else
        content <- str_add (text_content acc) chunk_content ;;
        Ok ([Chat "assistant" content], Buffers content (tool_content acc))
  end.

(** The loop, threading the accumulators. *)
Fixpoint handle_events (events : list StreamEvent) (acc : buffers)
  : gen ChatMessage :=
  match events with
  | [] => G.stop
  | event :: events' =>
      match handle_event event acc with
      | Ok (out, acc') => G.seq (Gen out None) (handle_events events' acc')
      | Raise e => G.throw e
      end
  end.

(** [get_response_from_agent].  [events] is the finished run of
    [agent_runnable.astream_events(...)]. *)
Definition get_response_from_agent (events : gen StreamEvent)
  : gen ChatMessage :=
  G.catch
    (G.seq (handle_events (yielded events) (Buffers "" ""))
           (match raised events with Some e => G.throw e | None => G.stop end))
    (fun _ => G.yield (Chat "assistant" error_message)).

End Formatting.

End HostApp.

(** * Properties *)

(** ** Shape predicates on yielded dictionaries *)

(** Exactly the three fields, in the order of the literal, with boolean
    flags; nothing is said about the content. *)
Definition three_fields (d : pydict) : bool :=
  bool_decide (Dict.keys d = envelope_keys)
  && is_bool (Dict.get "is_task_complete" PNone d)
  && is_bool (Dict.get "require_user_input" PNone d).

(** A status envelope in full: the three fields, and the content a text. *)
Definition status_envelope (d : pydict) : bool :=
  three_fields d && is_str (Dict.get "content" PNone d).

(** Both flags read as true. *)
Definition both_flags (d : pydict) : bool :=
  truthy (Dict.get "is_task_complete" PNone d)
  && truthy (Dict.get "require_user_input" PNone d).

(** The invariant the literals of the code establish. *)
Definition exclusive (d : pydict) : Prop :=
  exists c r x, d = envelope c r x /\ c && r = false.

(** Whether a queue event closes the task's stream of updates. *)
Definition is_final (ev : Executor.queue_event) : bool :=
  match ev with
  | Executor.TaskStatusUpdateEvent _ final _ _ => final
  | _ => false
  end.

(** The handle the registry ends with for [key] when [addresses] are
    resolved in order: that of the last address whose card advertises
    [key], if any. *)
Fixpoint resolved_handle {connection : Type}
    (connect : RouterAgent.AgentCard -> string -> result connection)
    (resolve : string -> result RouterAgent.AgentCard)
    (key : string) (addresses : list string) : option connection :=
  match addresses with
  | [] => None
  | address :: addresses' =>
      match resolved_handle connect resolve key addresses' with
      | Some handle => Some handle
      | None =>
          match resolve address with
          | Ok card =>
              match connect card address with
              | Ok handle =>
                  if RouterAgent.name card =? key then Some handle else None
              | Raise _ => None
              end
          | Raise _ => None
          end
      end
  end.

(** A part of a content list that the fallback's comprehension rejects:
    anything but a dictionary whose [type] is ['text']. *)
Definition not_text_part (part : pyval) : Prop :=
  forall d, part = PDict d -> Dict.lookup "type" d <> Some (PStr "text").

(** The dictionary [{'type': 'text', 'text': s}]. *)
Definition text_part (s : string) : pyval :=
  PDict [("type", PStr "text"); ("text", PStr s)].

(** What the loop of [_async_init_components] keeps true of its state,
    given the addresses seen so far: no name is twice in [cards], every card
    there sits under its own name, was resolved from a seen address and has
    a registry entry, and there are no more cards than addresses. *)
Definition roster_invariant {connection : Type}
    (resolve : string -> result RouterAgent.AgentCard)
    (seen : list string) (st : RouterAgent.components connection) : Prop :=
  NoDup (RouterAgent.cards st).*1
  /\ (forall key card,
        (key, card) ∈ RouterAgent.cards st ->
        RouterAgent.name card = key
        /\ (exists address, address ∈ seen /\ resolve address = Ok card)
        /\ is_Some (RouterAgent.registry st !! key))
  /\ length (RouterAgent.cards st) <= length seen.

(** Every chunk of the stream that [_process_stream_chunk] lets through
    carries a string as content. *)
Definition streams_text (render : pyval -> string)
    (chunks : list WeatherAgent.StreamEvent) : Prop :=
  Forall (fun d => is_str (Dict.get "content" PNone d) = true)
         (omap (WeatherAgent._process_stream_chunk render) chunks).

(** The text a yielded dictionary carries. *)
Definition content_text (d : pydict) : string :=
  match Dict.get "content" PNone d with
  | PStr s => s
  | _ => ""
  end.

(** The event for a progress dictionary: a non-final status update in state
    [working] with the dictionary's text as its message. *)
Definition progress_event (task : Executor.Task) (d : pydict)
  : Executor.queue_event :=
  Executor.TaskStatusUpdateEvent
    (Executor.Status Executor.working
       (Some (Executor.TextMessage (content_text d)
                (Some (Executor.contextId task)) (Some (Executor.id task)))))
    false (Executor.contextId task) (Executor.id task).

(** The texts accumulated after each of a sequence of text chunks. *)
Fixpoint running_text (so_far : string) (pieces : list string) : list string :=
  match pieces with
  | [] => []
  | piece :: pieces' =>
      (so_far +:+ piece) :: running_text (so_far +:+ piece) pieces'
  end.

Lemma eq_str_true v s : eq_str v s = true <-> v = PStr s.
Proof.
  destruct v; simpl; try (split; [discriminate | intros [=]]).
  split; [by intros ->%String.eqb_eq | intros [= ->]; apply String.eqb_refl].
Qed.

Lemma eq_str_false v s : v <> PStr s -> eq_str v s = false.
Proof.
  intros Hne. destruct (eq_str v s) eqn:E; [| done].
  by apply eq_str_true in E.
Qed.

Lemma exclusive_three_fields d : exclusive d -> three_fields d = true.
Proof. intros (c & r & x & -> & _). reflexivity. Qed.

Lemma exclusive_both_flags d : exclusive d -> both_flags d = false.
Proof. intros (c & r & x & -> & H). exact H. Qed.

Lemma exclusive_envelope c r x : c && r = false -> exclusive (envelope c r x).
Proof. intros H. exists c, r, x. done. Qed.

Create HintDb envelopes.
#[local] Hint Resolve exclusive_envelope : envelopes.

(** ** Generators: what a composed generator yields *)

Section GenLemmas.

Context {A B : Type}.
Implicit Types (g : gen A) (P : A -> Prop).

Lemma Forall_seq P g1 g2 :
  Forall P (yielded g1) -> Forall P (yielded g2) ->
  Forall P (yielded (G.seq g1 g2)).
Proof.
  intros H1 H2. unfold G.seq. destruct (raised g1); [done |].
  simpl. by apply Forall_app.
Qed.

Lemma Forall_for_each P (body : B -> gen A) items :
  (forall x, Forall P (yielded (body x))) ->
  Forall P (yielded (G.for_each items body)).
Proof.
  intros Hbody. induction items as [| x items IH]; simpl.
  - constructor.
  - apply Forall_seq; [apply Hbody | exact IH].
Qed.

Lemma Forall_for_in P (body : B -> gen A) (src : gen B) :
  (forall x, Forall P (yielded (body x))) ->
  Forall P (yielded (G.for_in src body)).
Proof.
  intros Hbody. unfold G.for_in. apply Forall_seq.
  - by apply Forall_for_each.
  - destruct (raised src); constructor.
Qed.

Lemma Forall_catch P g (h : exn -> gen A) :
  Forall P (yielded g) -> (forall e, Forall P (yielded (h e))) ->
  Forall P (yielded (G.catch g h)).
Proof.
  intros Hg Hh. unfold G.catch. destruct (raised g); [| done].
  simpl. apply Forall_app; auto.
Qed.

Lemma Forall_lift P (r : result B) (k : B -> gen A) :
  (forall b, Forall P (yielded (k b))) ->
  Forall P (yielded (G.lift r k)).
Proof. intros Hk. destruct r; simpl; [apply Hk | constructor]. Qed.

(** A handler that cannot raise makes the whole [try] unable to raise. *)
Lemma raised_catch g (h : exn -> gen A) :
  (forall e, raised (h e) = None) -> raised (G.catch g h) = None.
Proof.
  intros Hh. unfold G.catch. destruct (raised g) eqn:E; [apply Hh | exact E].
Qed.

End GenLemmas.

(** ** CurrencyAgent *)

Section CurrencyAgentFacts.

Import CurrencyAgent.

Lemma get_agent_response_exclusive get_state d :
  get_agent_response get_state = Ok d -> exclusive d.
Proof.
  unfold get_agent_response. destruct get_state as [values | e]; [| done].
  simpl. intros [= <-].
  destruct (Dict.get _ _ _); auto with envelopes.
  repeat case_match; auto with envelopes.
Qed.

Lemma get_agent_response_text get_state d :
  get_agent_response get_state = Ok d -> status_envelope d = true.
Proof.
  unfold get_agent_response. destruct get_state as [values | e]; [| done].
  simpl. intros [= <-].
  destruct (Dict.get _ _ _); try reflexivity.
  repeat case_match; reflexivity.
Qed.

Lemma stream_item_exclusive item :
  Forall exclusive (yielded (stream_item item)).
Proof.
  unfold stream_item. apply Forall_lift. intros message.
  repeat case_match; simpl; repeat constructor; auto with envelopes.
Qed.

Lemma stream_exclusive graph_stream get_state :
  Forall exclusive (yielded (stream graph_stream get_state)).
Proof.
  unfold stream. apply Forall_seq.
  - apply Forall_for_in, stream_item_exclusive.
  - destruct (get_agent_response get_state) as [d | e] eqn:E; simpl.
    + repeat constructor. by eapply get_agent_response_exclusive.
    + constructor.
Qed.

(** [stream] has no handler: an exception of the framework's stream comes
    out of the generator. *)
Lemma stream_propagates e get_state :
  raised (stream (Gen [] (Some e)) get_state) = Some e.
Proof. reflexivity. Qed.

End CurrencyAgentFacts.

(** C1. For every state snapshot the framework returns,
    [CurrencyAgent.get_agent_response] answers by the status of the
    structured response: ['completed'] gives the envelope
    (complete, no input required, the message); ['input_required'] and
    ['error'] both give (not complete, input required, the message); and when
    the snapshot holds no structured response that is a [ResponseFormat], the
    answer is the fixed (not complete, input required) envelope with the
    retry message. *)
Theorem get_agent_response_by_status (values : pydict) :
  (forall message,
     Dict.lookup "structured_response" values
       = Some (PResponse "completed" message) ->
     CurrencyAgent.get_agent_response (Ok values)
       = Ok (envelope true false (PStr message))) /\
  (forall message,
     Dict.lookup "structured_response" values
       = Some (PResponse "input_required" message) ->
     CurrencyAgent.get_agent_response (Ok values)
       = Ok (envelope false true (PStr message))) /\
  (forall message,
     Dict.lookup "structured_response" values
       = Some (PResponse "error" message) ->
     CurrencyAgent.get_agent_response (Ok values)
       = Ok (envelope false true (PStr message))) /\
  ((forall v, Dict.lookup "structured_response" values = Some v ->
              isinstance_ResponseFormat v = false) ->
   CurrencyAgent.get_agent_response (Ok values)
     = Ok (envelope false true (PStr CurrencyAgent.retry_message))).
Proof.
  unfold CurrencyAgent.get_agent_response, Dict.get; simpl.
  split; [| split; [| split]].
  - intros message ->. reflexivity.
  - intros message ->. reflexivity.
  - intros message ->. reflexivity.
  - intros Hnone.
    destruct (Dict.lookup _ values) as [v |] eqn:E; [| reflexivity].
    specialize (Hnone v eq_refl). destruct v; try reflexivity. discriminate.
Qed.

Lemma get_agent_response_by_status_witness :
  CurrencyAgent.get_agent_response
    (Ok [("messages", PList []);
         ("structured_response", PResponse "completed" "1 USD = 0.92 EUR")])
    = Ok (envelope true false (PStr "1 USD = 0.92 EUR")) /\
  CurrencyAgent.get_agent_response
    (Ok [("structured_response", PResponse "input_required" "Which currency?")])
    = Ok (envelope false true (PStr "Which currency?")) /\
  CurrencyAgent.get_agent_response
    (Ok [("structured_response", PResponse "error" "Unknown currency")])
    = Ok (envelope false true (PStr "Unknown currency")) /\
  CurrencyAgent.get_agent_response
    (Ok [("messages", PList []); ("structured_response", PStr "done")])
    = Ok (envelope false true (PStr CurrencyAgent.retry_message)).
Proof.
  split; [| split; [| split]].
  - apply (proj1 (get_agent_response_by_status _)). reflexivity.
  - apply (proj1 (proj2 (get_agent_response_by_status _))). reflexivity.
  - apply (proj1 (proj2 (proj2 (get_agent_response_by_status _)))). reflexivity.
  - apply (proj2 (proj2 (proj2 (get_agent_response_by_status _)))).
    intros v [= <-]. reflexivity.
Defined.

(** ** WeatherAgent *)

Section WeatherAgentFacts.

Import WeatherAgent.

Variable render : pyval -> string.

Lemma status_flags_exclusive status :
  (status =? "completed") && (status =? "input_required") = false.
Proof. destruct (String.eqb_spec status "completed") as [-> |]; done. Qed.

Lemma format_error_response_exclusive message :
  exclusive (_format_error_response message).
Proof. apply exclusive_envelope. reflexivity. Qed.

Lemma fallback_exclusive state_values d :
  _fallback_to_message_content state_values = Ok d -> exclusive d.
Proof.
  unfold _fallback_to_message_content, bind.
  repeat case_match; try discriminate; intros [= <-]; auto with envelopes.
Qed.

Lemma extract_response_exclusive get_state :
  exclusive (_extract_response get_state).
Proof.
  unfold _extract_response.
  destruct get_state as [state_values | e]; simpl;
    [| apply format_error_response_exclusive].
  destruct (truthy state_values); simpl;
    [| apply format_error_response_exclusive].
  destruct (state_field state_values "structured_response" PNone);
    simpl;
    try (destruct (_fallback_to_message_content state_values) eqn:E; simpl;
         [by eapply fallback_exclusive
         | apply format_error_response_exclusive]).
  apply exclusive_envelope, status_flags_exclusive.
Qed.

Lemma process_stream_chunk_working chunk d :
  _process_stream_chunk render chunk = Some d ->
  exists content, truthy content = true /\ d = envelope false false content.
Proof.
  unfold _process_stream_chunk.
  match goal with |- context [truthy ?c] => destruct (truthy c) eqn:E end;
    [| done].
  intros [= <-]. eauto.
Qed.

Lemma process_stream_chunk_exclusive chunk d :
  _process_stream_chunk render chunk = Some d -> exclusive d.
Proof.
  intros (content & _ & ->)%process_stream_chunk_working.
  auto with envelopes.
Qed.

Lemma astream_chunk_exclusive chunk :
  Forall exclusive (yielded (astream_chunk render chunk)).
Proof.
  unfold astream_chunk.
  destruct (_process_stream_chunk render chunk) as [d |] eqn:E;
    [| constructor].
  destruct (truthy (PDict d)); repeat constructor.
  by eapply process_stream_chunk_exclusive.
Qed.

Lemma astream_exclusive events get_state :
  Forall exclusive (yielded (astream render events get_state)).
Proof.
  unfold astream. apply Forall_catch.
  - apply Forall_seq.
    + apply Forall_for_in, astream_chunk_exclusive.
    + repeat constructor. apply extract_response_exclusive.
  - intros e. repeat constructor. apply format_error_response_exclusive.
Qed.

Lemma ainvoke_exclusive invoke get_state :
  exclusive (ainvoke invoke get_state).
Proof.
  unfold ainvoke. destruct invoke as [[] | e]; simpl.
  - apply extract_response_exclusive.
  - apply format_error_response_exclusive.
Qed.

(** What the chunks of a stream contribute, whatever ends the stream. *)
Lemma astream_never_raises events get_state :
  raised (astream render events get_state) = None.
Proof. unfold astream. by apply raised_catch. Qed.

Lemma astream_chunk_never_raises chunk :
  raised (astream_chunk render chunk) = None.
Proof. unfold astream_chunk. repeat case_match; reflexivity. Qed.

Lemma for_each_chunks_never_raise chunks :
  raised (G.for_each chunks (astream_chunk render)) = None.
Proof.
  induction chunks as [| chunk chunks IH]; [reflexivity |].
  simpl. unfold G.seq. by rewrite astream_chunk_never_raises.
Qed.

(** When the framework's event stream breaks with [e], [astream] yields
    what the chunks before gave and then one error envelope. *)
Lemma astream_on_error chunks e get_state :
  astream render (Gen chunks (Some e)) get_state
  = Gen (yielded (G.for_each chunks (astream_chunk render))
         ++ [_format_error_response ("Streaming error: " +:+ exn_str e)])%list
        None.
Proof.
  unfold astream, G.for_in. simpl.
  pose proof (for_each_chunks_never_raise chunks) as Hnone.
  assert (G.seq (G.for_each chunks (astream_chunk render)) (G.throw e)
          = Gen (yielded (G.for_each chunks (astream_chunk render))) (Some e))
    as ->.
  { unfold G.seq. rewrite Hnone. simpl. by rewrite app_nil_r. }
  reflexivity.
Qed.

End WeatherAgentFacts.

(** C2, as amended.  Every exception raised while [WeatherAgent] processes a
    query ends in a three-field envelope (complete, no input required) whose
    content is an error message: [ainvoke] returns it for a failed
    invocation and for a failed state read, [astream] never lets an exception
    out and, when the event stream breaks, yields it after what the earlier
    chunks gave.  [send_agent_message] also catches what its [try] block
    raises, but answers with the one-field dictionary
    [{'error': 'Failed to send message to agent <name>: <error>'}]. *)
Theorem errors_are_reformatted (render : pyval -> string) (e : exn) :
  (forall get_state,
     WeatherAgent.ainvoke (Raise e) get_state
     = envelope true false (PStr ("Error processing query: " +:+ exn_str e))) /\
  WeatherAgent.ainvoke (Ok tt) (Raise e)
  = envelope true false (PStr "Could not retrieve agent state") /\
  (forall events get_state,
     raised (WeatherAgent.astream render events get_state) = None) /\
  (forall chunks get_state,
     WeatherAgent.astream render (Gen chunks (Some e)) get_state
     = Gen (yielded (G.for_each chunks (WeatherAgent.astream_chunk render))
            ++ [envelope true false
                  (PStr ("Streaming error: " +:+ exn_str e))])%list
           None) /\
  (forall (connection : Type) send_message
          (registry : gmap string connection) agent_name client text config sent,
     registry !! agent_name = Some client ->
     (send_response <-
        send_message client
          (RouterAgent.message_request text (RouterAgent.message_id_of config)) ;;
      RouterAgent.read_response send_response) = Raise e ->
     (RouterAgent.send_agent_message send_message registry
        agent_name text config sent).1
     = PDict [("error",
               PStr ("Failed to send message to agent " +:+ agent_name
                     +:+ ": " +:+ exn_str e))]).
Proof.
  split; [| split; [| split; [| split]]].
  - reflexivity.
  - reflexivity.
  - intros. apply astream_never_raises.
  - intros. apply astream_on_error.
  - intros connection send_message registry agent_name client text config sent
      Hclient Hraise.
    unfold RouterAgent.send_agent_message. rewrite Hclient. simpl.
    by rewrite Hraise.
Qed.

Lemma errors_are_reformatted_witness :
  (RouterAgent.send_agent_message
     (fun (_ : unit) _ => Raise (Exn "ConnectError" "connection refused"))
     {["Weather Agent" := tt]} "Weather Agent" "Will it rain in Hanoi?"
     (RouterAgent.Config None) []).1
  = PDict [("error",
            PStr "Failed to send message to agent Weather Agent: connection refused")].
Proof.
  apply (proj2 (proj2 (proj2 (proj2
           (errors_are_reformatted (fun _ => "")
              (Exn "ConnectError" "connection refused")))))
           unit _ _ "Weather Agent" tt).
  - apply lookup_singleton_eq.
  - reflexivity.
Defined.

(** C2, as stated, fails: when the transport raises, the routing tool
    answers with a dictionary that is not a three-field status envelope. *)
Lemma send_agent_message_error_is_no_envelope :
  let answer :=
    (RouterAgent.send_agent_message
       (fun (_ : unit) _ => Raise (Exn "ConnectError" "connection refused"))
       {["Weather Agent" := tt]} "Weather Agent" "Will it rain in Hanoi?"
       (RouterAgent.Config None) []).1 in
  answer
  = PDict [("error",
            PStr "Failed to send message to agent Weather Agent: connection refused")]
  /\ forall c r x, answer <> PDict (envelope c r x).
Proof.
  assert ((RouterAgent.send_agent_message
             (fun (_ : unit) _ => Raise (Exn "ConnectError" "connection refused"))
             {["Weather Agent" := tt]} "Weather Agent" "Will it rain in Hanoi?"
             (RouterAgent.Config None) []).1
          = PDict [("error",
                    PStr "Failed to send message to agent Weather Agent: connection refused")])
    as Heq.
  { unfold RouterAgent.send_agent_message.
    rewrite lookup_singleton_eq. reflexivity. }
  simpl. split; [exact Heq |].
  intros c r x. rewrite Heq. discriminate.
Qed.

(** Every dictionary the three streaming operations produce has exactly the
    three fields, with boolean flags. *)
Lemma streaming_steps_have_three_fields (render : pyval -> string) :
  (forall graph_stream get_state,
     Forall (fun d => three_fields d = true)
            (yielded (CurrencyAgent.stream graph_stream get_state))) /\
  (forall events get_state,
     Forall (fun d => three_fields d = true)
            (yielded (WeatherAgent.astream render events get_state))) /\
  (forall chunk d,
     WeatherAgent._process_stream_chunk render chunk = Some d ->
     three_fields d = true).
Proof.
  split; [| split].
  - intros. eapply Forall_impl; [apply stream_exclusive |].
    apply exclusive_three_fields.
  - intros. eapply Forall_impl; [apply astream_exclusive |].
    apply exclusive_three_fields.
  - intros chunk d H. eapply exclusive_three_fields,
      process_stream_chunk_exclusive, H.
Qed.

(** C3 at the input where the code departs from it.  A model-stream chunk
    whose content is a list of parts goes through [_process_stream_chunk]
    and [astream] with that list as the envelope's content, so the content is
    not a text; [_fallback_to_message_content] on the same content joins
    the text parts into a string. *)
Theorem process_stream_chunk_list_content (render : pyval -> string) :
  let parts := PList [PDict [("type", PStr "text"); ("text", PStr "Hanoi")]] in
  let chunk :=
    WeatherAgent.Chunk (Some (PStr "on_chat_model_stream"))
      (Some [("chunk", PMessage AIMessageChunk parts [])]) in
  WeatherAgent._process_stream_chunk render chunk
  = Some (envelope false false parts) /\
  status_envelope (envelope false false parts) = false /\
  (forall get_state,
     yielded (WeatherAgent.astream render (Gen [chunk] None) get_state)
     = [envelope false false parts; WeatherAgent._extract_response get_state]) /\
  WeatherAgent._fallback_to_message_content
    (PDict [("messages", PList [PMessage AIMessage parts []])])
  = Ok (envelope true false (PStr "Hanoi")).
Proof. simpl. repeat split. Qed.

(** C4, as amended.  [_process_stream_chunk] dispatches on the event name.
    An ['on_tool_start'] chunk gives an envelope, both flags false, whose
    content is "Using tool: <name>..." where <name> is the [name] entry of
    the chunk's data, or the placeholder "a tool" when the data has no such
    entry; the event's own name is not read.  An ['on_chat_model_stream']
    chunk carrying an [AIMessageChunk] with non-empty content gives an
    envelope, both flags false, with exactly that content.  A chunk with any
    other event name, or a model-stream chunk without such content, gives
    [None]. *)
Theorem process_stream_chunk_filter (render : pyval -> string)
    (chunk : WeatherAgent.StreamEvent) :
  let data := default [] (WeatherAgent.data chunk) in
  (WeatherAgent.event chunk = Some (PStr "on_tool_start") ->
   WeatherAgent._process_stream_chunk render chunk
   = Some (envelope false false
             (PStr ("Using tool: "
                    +:+ format_value render (Dict.get "name" (PStr "a tool") data)
                    +:+ "..."))) /\
   (forall name,
      Dict.lookup "name" data = Some (PStr name) ->
      WeatherAgent._process_stream_chunk render chunk
      = Some (envelope false false
                (PStr ("Using tool: " +:+ name +:+ "...")))) /\
   (Dict.lookup "name" data = None ->
    WeatherAgent._process_stream_chunk render chunk
    = Some (envelope false false (PStr "Using tool: a tool...")))) /\
  (forall content tool_calls,
     WeatherAgent.event chunk = Some (PStr "on_chat_model_stream") ->
     Dict.lookup "chunk" data = Some (PMessage AIMessageChunk content tool_calls) ->
     truthy content = true ->
     WeatherAgent._process_stream_chunk render chunk
     = Some (envelope false false content)) /\
  (WeatherAgent.event chunk <> Some (PStr "on_tool_start") ->
   WeatherAgent.event chunk <> Some (PStr "on_chat_model_stream") ->
   WeatherAgent._process_stream_chunk render chunk = None) /\
  (WeatherAgent.event chunk = Some (PStr "on_chat_model_stream") ->
   isinstance_AIMessageChunk (Dict.get "chunk" PNone data) = false
   \/ truthy (content_of (Dict.get "chunk" PNone data)) = false ->
   WeatherAgent._process_stream_chunk render chunk = None).
Proof.
  destruct chunk as [event data]. simpl.
  split; [| split; [| split]].
  - intros ->.
    assert (WeatherAgent._process_stream_chunk render
              (WeatherAgent.Chunk (Some (PStr "on_tool_start")) data)
            = Some (envelope false false
                      (PStr ("Using tool: "
                             +:+ format_value render
                                   (Dict.get "name" (PStr "a tool")
                                             (default [] data))
                             +:+ "...")))) as Hgeneral by reflexivity.
    split; [exact Hgeneral | split].
    + intros name Hname. rewrite Hgeneral. unfold Dict.get. by rewrite Hname.
    + intros Hname. rewrite Hgeneral. unfold Dict.get. by rewrite Hname.
  - intros content tool_calls -> Hchunk Hcontent.
    unfold WeatherAgent._process_stream_chunk, Dict.get. cbn -[truthy].
    rewrite Hchunk. cbn -[truthy]. rewrite Hcontent. by rewrite Hcontent.
  - intros H1 H2. unfold WeatherAgent._process_stream_chunk. cbn -[eq_str].
    assert (forall s, event <> Some (PStr s) -> default PNone event <> PStr s)
      as Hother.
    { intros s Hne Heq. destruct event as [v |]; simpl in Heq; [| done].
      subst. congruence. }
    rewrite !eq_str_false by auto. reflexivity.
  - intros -> H. unfold WeatherAgent._process_stream_chunk.
    cbn -[truthy isinstance_AIMessageChunk content_of Dict.get].
    destruct H as [-> | H]; [reflexivity |].
    rewrite H. by destruct (isinstance_AIMessageChunk _).
Qed.

Lemma process_stream_chunk_filter_witness :
  WeatherAgent._process_stream_chunk (fun _ => "?")
    (WeatherAgent.Chunk (Some (PStr "on_tool_start"))
       (Some [("name", PStr "get_forecast")]))
  = Some (envelope false false (PStr "Using tool: get_forecast...")) /\
  WeatherAgent._process_stream_chunk (fun _ => "?")
    (WeatherAgent.Chunk (Some (PStr "on_tool_start"))
       (Some [("input", PDict [("city", PStr "Hanoi")])]))
  = Some (envelope false false (PStr "Using tool: a tool...")) /\
  WeatherAgent._process_stream_chunk (fun _ => "?")
    (WeatherAgent.Chunk (Some (PStr "on_chat_model_stream"))
       (Some [("chunk", PMessage AIMessageChunk (PStr "Sunny") [])]))
  = Some (envelope false false (PStr "Sunny")) /\
  WeatherAgent._process_stream_chunk (fun _ => "?")
    (WeatherAgent.Chunk (Some (PStr "on_chain_end")) (Some []))
  = None /\
  WeatherAgent._process_stream_chunk (fun _ => "?")
    (WeatherAgent.Chunk (Some (PStr "on_chat_model_stream"))
       (Some [("chunk", PMessage AIMessageChunk (PStr "") [])]))
  = None.
Proof.
  split; [| split; [| split; [| split]]].
  - apply (proj1 (proj2 (proj1 (process_stream_chunk_filter (fun _ => "?")
                    (WeatherAgent.Chunk (Some (PStr "on_tool_start"))
                       (Some [("name", PStr "get_forecast")]))) eq_refl))
             "get_forecast").
    reflexivity.
  - apply (proj2 (proj2 (proj1 (process_stream_chunk_filter (fun _ => "?")
                    (WeatherAgent.Chunk (Some (PStr "on_tool_start"))
                       (Some [("input", PDict [("city", PStr "Hanoi")])])))
                    eq_refl))).
    reflexivity.
  - apply (proj1 (proj2 (process_stream_chunk_filter (fun _ => "?")
                    (WeatherAgent.Chunk (Some (PStr "on_chat_model_stream"))
                       (Some [("chunk", PMessage AIMessageChunk (PStr "Sunny") [])]))))
             (PStr "Sunny") []); reflexivity.
  - apply (proj1 (proj2 (proj2 (process_stream_chunk_filter (fun _ => "?")
                    (WeatherAgent.Chunk (Some (PStr "on_chain_end")) (Some []))))));
      discriminate.
  - apply (proj2 (proj2 (proj2 (process_stream_chunk_filter (fun _ => "?")
                    (WeatherAgent.Chunk (Some (PStr "on_chat_model_stream"))
                       (Some [("chunk", PMessage AIMessageChunk (PStr "") [])])))))).
    + reflexivity.
    + right. reflexivity.
Defined.

(** C4, as stated, fails: a tool-start event whose data holds the tool's
    input but no [name] entry (the event's name lives outside [data]) gives
    the same content as an event with no data at all, the placeholder
    "Using tool: a tool...", so the content does not announce which tool
    starts. *)
Lemma tool_start_without_name_gives_placeholder :
  WeatherAgent._process_stream_chunk (fun _ => "?")
    (WeatherAgent.Chunk (Some (PStr "on_tool_start"))
       (Some [("input", PDict [("city", PStr "Hanoi")])]))
  = Some (envelope false false (PStr "Using tool: a tool...")) /\
  WeatherAgent._process_stream_chunk (fun _ => "?")
    (WeatherAgent.Chunk (Some (PStr "on_tool_start"))
       (Some [("input", PDict [("city", PStr "Hanoi")])]))
  = WeatherAgent._process_stream_chunk (fun _ => "?")
      (WeatherAgent.Chunk (Some (PStr "on_tool_start")) None).
Proof. split; reflexivity. Qed.

(** C8. No status envelope produced by [CurrencyAgent] ([stream],
    [get_agent_response]) or by [WeatherAgent] ([ainvoke], [astream],
    [_extract_response], [_fallback_to_message_content],
    [_format_error_response], [_process_stream_chunk]) has both
    [is_task_complete] and [require_user_input] true. *)
Theorem flags_never_both_true (render : pyval -> string) :
  (forall graph_stream get_state,
     Forall (fun d => both_flags d = false)
            (yielded (CurrencyAgent.stream graph_stream get_state))) /\
  (forall get_state d,
     CurrencyAgent.get_agent_response get_state = Ok d ->
     both_flags d = false) /\
  (forall invoke get_state,
     both_flags (WeatherAgent.ainvoke invoke get_state) = false) /\
  (forall events get_state,
     Forall (fun d => both_flags d = false)
            (yielded (WeatherAgent.astream render events get_state))) /\
  (forall get_state,
     both_flags (WeatherAgent._extract_response get_state) = false) /\
  (forall state_values d,
     WeatherAgent._fallback_to_message_content state_values = Ok d ->
     both_flags d = false) /\
  (forall message,
     both_flags (WeatherAgent._format_error_response message) = false) /\
  (forall chunk d,
     WeatherAgent._process_stream_chunk render chunk = Some d ->
     both_flags d = false).
Proof.
  repeat apply conj; intros.
  - eapply Forall_impl; [apply stream_exclusive | apply exclusive_both_flags].
  - eauto using exclusive_both_flags, get_agent_response_exclusive.
  - apply exclusive_both_flags, ainvoke_exclusive.
  - eapply Forall_impl; [apply astream_exclusive | apply exclusive_both_flags].
  - apply exclusive_both_flags, extract_response_exclusive.
  - eauto using exclusive_both_flags, fallback_exclusive.
  - reflexivity.
  - eauto using exclusive_both_flags, process_stream_chunk_exclusive.
Qed.

Lemma flags_never_both_true_witness :
  both_flags (envelope true false (PStr "1 USD = 0.92 EUR")) = false /\
  both_flags (envelope true false (PStr "Sunny, 31 degrees")) = false /\
  both_flags (envelope false false (PStr "Using tool: get_forecast...")) = false.
Proof.
  pose proof (flags_never_both_true (fun _ => "?"))
    as (_ & Hresponse & _ & _ & _ & Hfallback & _ & Hchunk).
  split; [| split].
  - apply (Hresponse
             (Ok [("structured_response",
                   PResponse "completed" "1 USD = 0.92 EUR")])).
    reflexivity.
  - apply (Hfallback
             (PDict [("messages",
                      PList [PMessage AIMessage (PStr "Sunny, 31 degrees") []])])).
    reflexivity.
  - apply (Hchunk
             (WeatherAgent.Chunk (Some (PStr "on_tool_start"))
                (Some [("name", PStr "get_forecast")]))).
    reflexivity.
Defined.

(** C9, as amended.  Constructing a [WeatherAgent] without tools ([None] or
    the empty list) raises [ValueError] and asks nothing of the framework.
    With a non-empty list of tools the constructor asks the framework for
    the checkpoint store and then for the agent graph over that very list;
    when both constructions succeed the agent holds the list unchanged, and
    an exception of either construction comes out of the constructor. *)
Theorem init_requires_tools
    (framework : WeatherAgent.framework_call -> result unit)
    (log : list WeatherAgent.framework_call) :
  WeatherAgent.__init__ framework PNone log = (Raise WeatherAgent.no_tools, log) /\
  WeatherAgent.__init__ framework (PList []) log
  = (Raise WeatherAgent.no_tools, log) /\
  WeatherAgent.no_tools = Exn "ValueError" "No MCP tools provided to WeatherAgent" /\
  (forall tool tools,
     let mcp_tools := PList (tool :: tools) in
     let graph :=
       WeatherAgent.create_react_agent mcp_tools
         WeatherAgent.SYSTEM_INSTRUCTION
         WeatherAgent.RESPONSE_FORMAT_INSTRUCTION in
     (framework WeatherAgent.MemorySaver = Ok tt ->
      framework graph = Ok tt ->
      WeatherAgent.__init__ framework mcp_tools log
      = (Ok (WeatherAgent.Agent mcp_tools graph),
         (log ++ [WeatherAgent.MemorySaver; graph])%list)) /\
     (forall e,
        framework WeatherAgent.MemorySaver = Raise e ->
        WeatherAgent.__init__ framework mcp_tools log
        = (Raise e, (log ++ [WeatherAgent.MemorySaver])%list)) /\
     (forall e,
        framework WeatherAgent.MemorySaver = Ok tt ->
        framework graph = Raise e ->
        WeatherAgent.__init__ framework mcp_tools log
        = (Raise e, (log ++ [WeatherAgent.MemorySaver; graph])%list))).
Proof.
  split; [reflexivity | split; [reflexivity | split; [reflexivity |]]].
  intros tool tools mcp_tools graph.
  unfold WeatherAgent.__init__. cbn [truthy mcp_tools negb].
  fold mcp_tools. fold graph.
  split; [| split].
  - intros -> ->. reflexivity.
  - intros e ->. reflexivity.
  - intros e -> ->. reflexivity.
Qed.

Lemma init_requires_tools_witness :
  let tools := PList [PStr "get_forecast"; PStr "get_alerts"] in
  let graph :=
    WeatherAgent.create_react_agent tools WeatherAgent.SYSTEM_INSTRUCTION
      WeatherAgent.RESPONSE_FORMAT_INSTRUCTION in
  WeatherAgent.__init__ (fun _ => Ok tt) tools []
  = (Ok (WeatherAgent.Agent tools graph), [WeatherAgent.MemorySaver; graph]) /\
  WeatherAgent.__init__
    (fun _ => Raise (Exn "RuntimeError" "no checkpoint store")) tools []
  = (Raise (Exn "RuntimeError" "no checkpoint store"), [WeatherAgent.MemorySaver]) /\
  WeatherAgent.__init__
    (fun call =>
       match call with
       | WeatherAgent.MemorySaver => Ok tt
       | _ => Raise (Exn "ValueError" "not a tool")
       end)
    tools []
  = (Raise (Exn "ValueError" "not a tool"), [WeatherAgent.MemorySaver; graph]).
Proof.
  intros tools graph. split; [| split].
  - apply (proj1 (proj2 (proj2 (proj2
             (init_requires_tools (fun _ => Ok tt) [])))
             (PStr "get_forecast") [PStr "get_alerts"])); reflexivity.
  - apply (proj1 (proj2 (proj2 (proj2 (proj2
             (init_requires_tools
                (fun _ => Raise (Exn "RuntimeError" "no checkpoint store")) [])))
             (PStr "get_forecast") [PStr "get_alerts"]))).
    reflexivity.
  - apply (proj2 (proj2 (proj2 (proj2 (proj2
             (init_requires_tools
                (fun call =>
                   match call with
                   | WeatherAgent.MemorySaver => Ok tt
                   | _ => Raise (Exn "ValueError" "not a tool")
                   end) [])))
             (PStr "get_forecast") [PStr "get_alerts"]))); reflexivity.
Defined.

(** C9, as stated, fails: with a non-empty list the constructor goes on to
    build the graph, and when the framework refuses the tools the
    construction does not succeed. *)
Lemma init_fails_when_graph_is_refused :
  let framework call :=
    match call with
    | WeatherAgent.MemorySaver => Ok tt
    | WeatherAgent.create_react_agent _ _ _ =>
        Raise (Exn "ValueError" "not a tool")
    end in
  (WeatherAgent.__init__ framework (PList [PNone]) []).1
  = Raise (Exn "ValueError" "not a tool")
  /\ forall agent,
       (WeatherAgent.__init__ framework (PList [PNone]) []).1 <> Ok agent.
Proof. simpl. split; [reflexivity | discriminate]. Qed.

(** ** The routing tool and the registry *)

Section RouterFacts.

Import RouterAgent.

Context {connection : Type}.
Variable connect : AgentCard -> string -> result connection.
Variable send_message :
  connection -> SendMessageRequest -> result SendMessageResponse.
Variable resolve : string -> result AgentCard.

Lemma part_texts_dicts (parts : list pydict) :
  part_texts (PDict <$> parts) = Ok (Dict.get "text" PNone <$> parts).
Proof.
  induction parts as [| part parts IH]; [reflexivity |].
  simpl. fold (@fmap list _ _ _ PDict parts). by rewrite IH.
Qed.

Lemma read_response_last_artifact dump artifacts artifact (parts : list pydict) :
  Dict.lookup "artifacts" dump = Some (PList artifacts) ->
  last artifacts = Some (PDict artifact) ->
  Dict.lookup "parts" artifact = Some (PList (PDict <$> parts)) ->
  read_response (SuccessResponse (PDict dump))
  = Ok (PList (Dict.get "text" PNone <$> parts)).
Proof.
  intros Hartifacts Hlast Hparts. unfold read_response. simpl.
  rewrite Hartifacts. simpl. rewrite Hlast. simpl.
  unfold Dict.get. rewrite Hparts. simpl.
  by rewrite part_texts_dicts.
Qed.

(** A successfully resolved address registers its card's name. *)
Lemma init_address_resolved st address card remote_connection :
  resolve address = Ok card ->
  connect card address = Ok remote_connection ->
  init_address connect resolve st address
  = Components (<[name card := remote_connection]> (registry st))
               (Dict.set (name card) card (cards st)).
Proof. intros Hcard Hconn. unfold init_address. by rewrite Hcard; simpl; rewrite Hconn. Qed.

(** An entry survives the addresses that do not resolve to its name. *)
Lemma registry_entry_kept addresses : forall st key remote_connection,
  registry st !! key = Some remote_connection ->
  (forall address card handle,
     address ∈ addresses -> resolve address = Ok card ->
     connect card address = Ok handle -> name card <> key) ->
  registry (foldl (init_address connect resolve) st addresses) !! key
  = Some remote_connection.
Proof.
  induction addresses as [| address addresses IH]; intros st key conn Hkey Hlater;
    [exact Hkey |].
  simpl. apply IH.
  - unfold init_address.
    destruct (resolve address) as [card | e] eqn:Hcard; simpl; [| exact Hkey].
    destruct (connect card address) as [handle | e] eqn:Hconn; simpl;
      [| exact Hkey].
    rewrite lookup_insert_ne; [exact Hkey |].
    eapply Hlater; eauto. left.
  - intros address' card handle Hin. apply Hlater. by right.
Qed.

End RouterFacts.

(** C5, as amended.  [send_agent_message] finds its target by looking the
    agent name up in the registry.  A name that is not registered gives
    [{'error': 'Agent <name> not found.'}] and nothing is sent.  For a
    registered name the request carrying the text goes to that name's
    connection handle, once.  When the call returns a result whose last
    artifact has a list of parts, the answer is the list of the [text]
    entries of those parts; when the call raises, or the response cannot be
    read that way, the answer is
    [{'error': 'Failed to send message to agent <name>: <error>'}]. *)
Theorem send_agent_message_lookup {connection : Type}
    (send_message : connection -> RouterAgent.SendMessageRequest
                    -> result RouterAgent.SendMessageResponse)
    (registry : gmap string connection) (agent_name text : string)
    (config : RouterAgent.RunnableConfig)
    (sent : list (connection * RouterAgent.SendMessageRequest)) :
  let request :=
    RouterAgent.message_request text (RouterAgent.message_id_of config) in
  let answer :=
    RouterAgent.send_agent_message send_message registry agent_name text
                                   config sent in
  (registry !! agent_name = None ->
   answer
   = (PDict [("error", PStr ("Agent " +:+ agent_name +:+ " not found."))],
      sent)) /\
  (forall client,
     registry !! agent_name = Some client ->
     answer.2 = (sent ++ [(client, request)])%list /\
     RouterAgent.parts request = [[("type", PStr "text"); ("text", PStr text)]] /\
     (forall dump artifacts artifact (parts : list pydict),
        send_message client request
        = Ok (RouterAgent.SuccessResponse (PDict dump)) ->
        Dict.lookup "artifacts" dump = Some (PList artifacts) ->
        last artifacts = Some (PDict artifact) ->
        Dict.lookup "parts" artifact = Some (PList (PDict <$> parts)) ->
        answer.1 = PList (Dict.get "text" PNone <$> parts)) /\
     (forall e,
        (send_response <- send_message client request ;;
         RouterAgent.read_response send_response) = Raise e ->
        answer.1
        = PDict [("error",
                  PStr ("Failed to send message to agent " +:+ agent_name
                        +:+ ": " +:+ exn_str e))])).
Proof.
  simpl. unfold RouterAgent.send_agent_message. split.
  - intros ->. reflexivity.
  - intros client ->. simpl.
    split; [reflexivity | split; [reflexivity | split]].
    + intros dump artifacts artifact parts -> Hartifacts Hlast Hparts. simpl.
      by erewrite read_response_last_artifact.
    + intros e ->. reflexivity.
Qed.

Lemma send_agent_message_lookup_witness :
  let send_message (client : string) (_ : RouterAgent.SendMessageRequest) :=
    if client =? "http://localhost:10001" then
      Ok (RouterAgent.SuccessResponse
            (PDict [("id", PStr "task-1");
                    ("artifacts",
                     PList [PDict [("name", PStr "current_result");
                                   ("parts",
                                    PList [PDict [("kind", PStr "text");
                                                  ("text", PStr "Sunny")]])]])]))
    else Raise (Exn "ConnectError" "connection refused") in
  let registry : gmap string string :=
    <["Weather Agent" := "http://localhost:10001"]>
      {["Airbnb Agent" := "http://localhost:10002"]} in
  RouterAgent.send_agent_message send_message registry "Currency Agent"
    "USD to EUR" (RouterAgent.Config None) []
  = (PDict [("error", PStr "Agent Currency Agent not found.")], []) /\
  (RouterAgent.send_agent_message send_message registry "Weather Agent"
     "Will it rain?" (RouterAgent.Config None) []).1
  = PList [PStr "Sunny"] /\
  (RouterAgent.send_agent_message send_message registry "Airbnb Agent"
     "A room in LA" (RouterAgent.Config None) []).1
  = PDict [("error",
            PStr "Failed to send message to agent Airbnb Agent: connection refused")].
Proof.
  intros send_message registry. split; [| split].
  - apply (proj1 (send_agent_message_lookup send_message registry
                    "Currency Agent" "USD to EUR" (RouterAgent.Config None) [])).
    unfold registry. rewrite lookup_insert_ne by discriminate.
    apply lookup_singleton_ne. discriminate.
  - destruct (proj2 (send_agent_message_lookup send_message registry
                       "Weather Agent" "Will it rain?"
                       (RouterAgent.Config None) [])
                "http://localhost:10001" (lookup_insert_eq _ _ _))
      as (_ & _ & Hanswer & _).
    apply (Hanswer _ _ _ [[("kind", PStr "text"); ("text", PStr "Sunny")]]
             eq_refl eq_refl eq_refl eq_refl).
  - assert (registry !! "Airbnb Agent" = Some "http://localhost:10002")
      as Hclient.
    { unfold registry. rewrite lookup_insert_ne by discriminate.
      apply lookup_singleton_eq. }
    destruct (proj2 (send_agent_message_lookup send_message registry
                       "Airbnb Agent" "A room in LA"
                       (RouterAgent.Config None) [])
                "http://localhost:10002" Hclient)
      as (_ & _ & _ & Hfailed).
    apply (Hfailed (Exn "ConnectError" "connection refused")). reflexivity.
Defined.

(** C5, as stated, fails: for a registered agent whose result holds no
    artifact the tool does not return text parts but the error
    dictionary. *)
Lemma send_agent_message_registered_without_artifacts :
  let send_message (_ : unit) (_ : RouterAgent.SendMessageRequest) :=
    Ok (RouterAgent.SuccessResponse
          (PDict [("id", PStr "task-1"); ("artifacts", PList [])])) in
  let answer :=
    (RouterAgent.send_agent_message send_message {["Weather Agent" := tt]}
       "Weather Agent" "Will it rain?" (RouterAgent.Config None) []).1 in
  answer
  = PDict [("error",
            PStr "Failed to send message to agent Weather Agent: list index out of range")]
  /\ forall texts, answer <> PList texts.
Proof.
  intros send_message.
  assert ((RouterAgent.send_agent_message send_message {["Weather Agent" := tt]}
             "Weather Agent" "Will it rain?" (RouterAgent.Config None) []).1
          = PDict [("error",
                    PStr "Failed to send message to agent Weather Agent: list index out of range")])
    as Heq.
  { unfold RouterAgent.send_agent_message.
    rewrite lookup_singleton_eq. reflexivity. }
  simpl. split; [exact Heq |].
  intros texts. rewrite Heq. discriminate.
Qed.

(** C7, as amended.  After [_async_init_components] the registry maps the
    advertised name of each successfully resolved card (the key is the name,
    not the address) to that card's connection handle, unless a later
    address resolved to a card advertising the same name; and
    [list_remote_agents] gives the empty list for no cards and otherwise one
    [{'name', 'description'}] dictionary per card, in order, from the card's
    advertised fields. *)
Theorem registry_after_init {connection : Type}
    (connect : RouterAgent.AgentCard -> string -> result connection)
    (resolve : string -> result RouterAgent.AgentCard)
    (earlier later : list string) (address : string)
    (remote_agent_connections : gmap string connection)
    (card : RouterAgent.AgentCard) (remote_connection : connection) :
  (resolve address = Ok card ->
   connect card address = Ok remote_connection ->
   (forall address' card' handle,
      address' ∈ later -> resolve address' = Ok card' ->
      connect card' address' = Ok handle ->
      RouterAgent.name card' <> RouterAgent.name card) ->
   RouterAgent.registry
     (RouterAgent._async_init_components connect resolve
        (earlier ++ address :: later) remote_agent_connections)
     !! RouterAgent.name card
   = Some remote_connection) /\
  RouterAgent.list_remote_agents [] = [] /\
  (forall cards : list (string * RouterAgent.AgentCard),
     RouterAgent.list_remote_agents cards
     = (fun '(_, card) =>
          [("name", PStr (RouterAgent.name card));
           ("description", PStr (RouterAgent.description card))]) <$> cards).
Proof.
  split; [| split].
  - intros Hcard Hconn Hlater.
    unfold RouterAgent._async_init_components.
    rewrite foldl_app. simpl.
    apply registry_entry_kept; [| exact Hlater].
    rewrite (init_address_resolved _ _ _ _ _ _ Hcard Hconn). simpl.
    apply lookup_insert_eq.
  - reflexivity.
  - intros cards. unfold RouterAgent.list_remote_agents, Dict.values.
    destruct cards as [| [key c] cards]; [reflexivity |].
    cbn [negb]. rewrite <- list_fmap_compose.
    apply list_fmap_ext. by intros _ [k c'] _.
Qed.

Lemma registry_after_init_witness :
  let resolve (address : string) :=
    if address =? "http://localhost:10002"
    then Ok (RouterAgent.Card "Airbnb Agent" "Finds accommodation")
    else Ok (RouterAgent.Card "Weather Agent" "Forecasts") in
  let connect (card : RouterAgent.AgentCard) (address : string) :=
    Ok (card, address) in
  RouterAgent.registry
    (RouterAgent._async_init_components connect resolve
       ["http://localhost:10002"; "http://localhost:10001"] ∅)
    !! "Airbnb Agent"
  = Some (RouterAgent.Card "Airbnb Agent" "Finds accommodation",
          "http://localhost:10002").
Proof.
  intros resolve connect.
  apply (proj1 (registry_after_init connect resolve
                  [] ["http://localhost:10001"] "http://localhost:10002" ∅
                  (RouterAgent.Card "Airbnb Agent" "Finds accommodation")
                  (RouterAgent.Card "Airbnb Agent" "Finds accommodation",
                   "http://localhost:10002"))).
  - reflexivity.
  - reflexivity.
  - intros address' card' handle ->%list_elem_of_singleton [= <-] _.
    discriminate.
Defined.

(** C7, as stated, fails: two addresses whose cards advertise the same name
    are both resolved, and the name then maps to the handle of the second,
    not to the handle of the first. *)
Lemma registry_same_name_keeps_later_handle :
  let resolve (address : string) :=
    Ok (RouterAgent.Card "Weather Agent" "Forecasts") in
  let connect (card : RouterAgent.AgentCard) (address : string) :=
    Ok (card, address) in
  let st :=
    RouterAgent._async_init_components connect resolve
      ["http://localhost:10001"; "http://localhost:10002"] ∅ in
  resolve "http://localhost:10001"
  = Ok (RouterAgent.Card "Weather Agent" "Forecasts") /\
  connect (RouterAgent.Card "Weather Agent" "Forecasts") "http://localhost:10001"
  = Ok (RouterAgent.Card "Weather Agent" "Forecasts", "http://localhost:10001") /\
  RouterAgent.registry st !! "Weather Agent"
  = Some (RouterAgent.Card "Weather Agent" "Forecasts", "http://localhost:10002") /\
  RouterAgent.registry st !! "Weather Agent"
  <> Some (RouterAgent.Card "Weather Agent" "Forecasts", "http://localhost:10001").
Proof.
  intros resolve connect st.
  assert (RouterAgent.registry st !! "Weather Agent"
          = Some (RouterAgent.Card "Weather Agent" "Forecasts",
                  "http://localhost:10002")) as Hst.
  { unfold st, RouterAgent._async_init_components. simpl.
    unfold RouterAgent.init_address. simpl. apply lookup_insert_eq. }
  split; [reflexivity | split; [reflexivity | split; [exact Hst |]]].
  rewrite Hst. discriminate.
Qed.

(** ** The executors *)

Section ExecutorFacts.

Import Executor Executor.WeatherAgentExecutor.
Local Open Scope list_scope.

(** The loop enqueues, in order, what each streamed dictionary translates
    to. *)
Lemma consume_all task events : forall outs event_queue,
  Forall2 (fun event out => translate task event = Ok out) events outs ->
  consume task events event_queue = (Ok tt, event_queue ++ concat outs).
Proof.
  induction events as [| event events IH]; intros outs event_queue Hall.
  - apply Forall2_nil_inv_l in Hall as ->. simpl. by rewrite app_nil_r.
  - apply Forall2_cons_inv_l in Hall as (out & outs' & Hout & Hall & ->).
    simpl. rewrite Hout, (IH _ _ Hall). by rewrite <- app_assoc.
Qed.

End ExecutorFacts.



(** C10. For every request context and event queue, [cancel] of
    [HelloWorldAgentExecutor] and of [WeatherAgentExecutor] raises an
    exception with the message 'cancel not supported' and leaves the event
    queue as it was. *)
Theorem cancel_not_supported_raises (context : Executor.RequestContext)
    (event_queue : list Executor.queue_event) :
  Executor.HelloWorldAgentExecutor.cancel context event_queue
  = (Raise (Exn "Exception" "cancel not supported"), event_queue) /\
  Executor.WeatherAgentExecutor.cancel context event_queue
  = (Raise (Exn "Exception" "cancel not supported"), event_queue).
Proof. split; reflexivity. Qed.

(** * Further properties of the wrappers *)

(** ** WeatherAgent: the final response *)

Section WeatherResponseFacts.

Import WeatherAgent.

Lemma lookup_some_truthy k (d : pydict) v :
  Dict.lookup k d = Some v -> truthy (PDict d) = true.
Proof. by destruct d. Qed.

(** The comprehension keeps, in order, the [text] of every text part. *)
Lemma text_parts_of_texts (texts : list string) :
  text_parts ((fun s => PDict [("type", PStr "text"); ("text", PStr s)]) <$> texts)
  = Ok (PStr <$> texts).
Proof.
  induction texts as [| s texts IH]; [reflexivity |].
  cbn -[text_parts] in *. simpl. by rewrite IH.
Qed.

Lemma strings_of_strs (texts : list string) :
  strings_of (PStr <$> texts) = Ok texts.
Proof.
  induction texts as [| s texts IH]; [reflexivity |].
  simpl. fold (@fmap list _ _ _ PStr texts). by rewrite IH.
Qed.

(** Whether the comprehension's filter keeps a part. *)
Lemma text_parts_app l1 l2 :
  text_parts (l1 ++ l2)
  = (xs <- text_parts l1 ;; ys <- text_parts l2 ;; Ok (xs ++ ys)%list).
Proof.
  induction l1 as [| part l1 IH]; simpl.
  - by destruct (text_parts l2).
  - case_match.
    + destruct (getitem part "text"); simpl; [| done].
      rewrite IH. destruct (text_parts l1); simpl; [| done].
      by destruct (text_parts l2).
    + exact IH.
Qed.

Lemma fallback_text state_values d :
  _fallback_to_message_content state_values = Ok d -> status_envelope d = true.
Proof.
  unfold _fallback_to_message_content, bind.
  repeat case_match; try discriminate; intros [= <-]; try reflexivity.
  match goal with H : is_str ?c && _ = true |- _ =>
    destruct c; try discriminate H end.
  reflexivity.
Qed.

Lemma extract_response_text get_state :
  status_envelope (_extract_response get_state) = true.
Proof.
  unfold _extract_response.
  destruct get_state as [state_values | e]; simpl; [| reflexivity].
  destruct (truthy state_values); simpl; [| reflexivity].
  destruct (state_field state_values "structured_response" PNone); simpl;
    try (destruct (_fallback_to_message_content state_values) eqn:E; simpl;
         [by eapply fallback_text | reflexivity]).
  reflexivity.
Qed.

(** Without a structured response the answer is the fallback's, and an
    exception of the fallback becomes the fixed error envelope. *)
Lemma extract_response_falls_back (state : pydict) messages :
  Dict.lookup "structured_response" state = None ->
  Dict.lookup "messages" state = Some messages ->
  _extract_response (Ok (PDict state))
  = try_except (_fallback_to_message_content (PDict state))
      (fun _ => _format_error_response "Could not retrieve agent state").
Proof.
  intros Hnone Hmessages.
  unfold _extract_response, state_field, Dict.get. cbn -[truthy].
  by rewrite (lookup_some_truthy _ _ _ Hmessages), Hnone.
Qed.

(** The fallback looks at the last message only. *)
Lemma fallback_on_last (state : pydict) messages m :
  Dict.lookup "messages" state = Some (PList messages) ->
  last messages = Some m ->
  _fallback_to_message_content (PDict state)
  = if isinstance_AIMessage m then
      if is_str (content_of m) && truthy (content_of m) then
        Ok (envelope true false (content_of m))
      else
        match content_of m with
        | PList parts =>
            texts <- text_parts parts ;;
            if truthy (PList texts) then
              joined <- str_join newline texts ;;
              Ok (envelope true false (PStr joined))
            else Ok (envelope false true (PStr unexpected_format))
        | _ => Ok (envelope false true (PStr unexpected_format))
        end
    else Ok (envelope false true (PStr unexpected_format)).
Proof.
  intros Hmessages Hlast.
  unfold _fallback_to_message_content, state_field, Dict.get.
  rewrite Hmessages. cbn -[truthy index_last].
  assert (truthy (PList messages) = true) as -> by by destruct messages.
  unfold index_last. by rewrite Hlast.
Qed.

End WeatherResponseFacts.

(** X1. [WeatherAgent._extract_response] reads the flags off the status of
    the structured response, whatever else the state holds: ['completed']
    gives (complete, no input), ['input_required'] gives (not complete,
    input required), and ['error'] gives an envelope with both flags false,
    each with the response's message as content. *)
Theorem extract_response_by_status (state : pydict) (message : string) :
  (Dict.lookup "structured_response" state
     = Some (PResponse "completed" message) ->
   WeatherAgent._extract_response (Ok (PDict state))
   = envelope true false (PStr message)) /\
  (Dict.lookup "structured_response" state
     = Some (PResponse "input_required" message) ->
   WeatherAgent._extract_response (Ok (PDict state))
   = envelope false true (PStr message)) /\
  (Dict.lookup "structured_response" state
     = Some (PResponse "error" message) ->
   WeatherAgent._extract_response (Ok (PDict state))
   = envelope false false (PStr message)).
Proof.
  unfold WeatherAgent._extract_response, WeatherAgent.state_field, Dict.get.
  split; [| split]; intros H; cbn -[truthy];
    rewrite (lookup_some_truthy _ _ _ H), H; reflexivity.
Qed.

Lemma extract_response_by_status_witness :
  WeatherAgent._extract_response
    (Ok (PDict [("structured_response", PResponse "completed" "Sunny")]))
  = envelope true false (PStr "Sunny") /\
  WeatherAgent._extract_response
    (Ok (PDict [("structured_response", PResponse "input_required" "Which city?")]))
  = envelope false true (PStr "Which city?") /\
  WeatherAgent._extract_response
    (Ok (PDict [("messages", PList [PMessage AIMessage (PStr "Sunny") []]);
                ("structured_response", PResponse "error" "No such city")]))
  = envelope false false (PStr "No such city").
Proof.
  split; [| split].
  - apply (proj1 (extract_response_by_status _ _)). reflexivity.
  - apply (proj1 (proj2 (extract_response_by_status _ _))). reflexivity.
  - apply (proj2 (proj2 (extract_response_by_status _ _))). reflexivity.
Defined.

(** X2. The final response of [WeatherAgent] always carries a text: for
    every outcome of the framework, [_extract_response] and [ainvoke] give a
    dictionary with exactly the three fields, boolean flags and a string as
    content. *)
Theorem final_response_is_text (invoke : result unit) (get_state : result pyval) :
  status_envelope (WeatherAgent._extract_response get_state) = true /\
  status_envelope (WeatherAgent.ainvoke invoke get_state) = true.
Proof.
  split; [apply extract_response_text |].
  unfold WeatherAgent.ainvoke. destruct invoke as [[] | e]; simpl.
  - apply extract_response_text.
  - reflexivity.
Qed.

(** X3. Without a structured response, [_extract_response] falls back to the
    last message of the state when that is an AI message: a non-empty string
    content is returned as a completed answer, and a content list made of
    text parts is returned as their texts joined by newlines. *)
Theorem fallback_uses_last_ai_message (state : pydict) (messages : list pyval)
    (cls : msg_class) (tool_calls : list pyval) :
  Dict.lookup "structured_response" state = None ->
  Dict.lookup "messages" state = Some (PList messages) ->
  cls = AIMessage \/ cls = AIMessageChunk ->
  (forall text,
     last messages = Some (PMessage cls (PStr text) tool_calls) ->
     text <> "" ->
     WeatherAgent._extract_response (Ok (PDict state))
     = envelope true false (PStr text)) /\
  (forall texts,
     last messages
     = Some (PMessage cls
               (PList ((fun s => PDict [("type", PStr "text"); ("text", PStr s)])
                         <$> texts))
               tool_calls) ->
     texts <> [] ->
     WeatherAgent._extract_response (Ok (PDict state))
     = envelope true false (PStr (join newline texts))).
Proof.
  intros Hnone Hmessages Hcls.
  split.
  - intros text Hlast Hne.
    rewrite (extract_response_falls_back _ _ Hnone Hmessages),
            (fallback_on_last _ _ _ Hmessages Hlast).
    destruct Hcls as [-> | ->]; cbn;
      (destruct (String.eqb_spec text ""); [done | reflexivity]).
  - intros texts Hlast Hne.
    rewrite (extract_response_falls_back _ _ Hnone Hmessages),
            (fallback_on_last _ _ _ Hmessages Hlast).
    destruct Hcls as [-> | ->]; cbn -[truthy WeatherAgent.text_parts];
      rewrite text_parts_of_texts; cbn -[truthy];
      (assert (truthy (PList (PStr <$> texts)) = true) as -> by by destruct texts);
      unfold str_join; rewrite strings_of_strs; reflexivity.
Qed.

Lemma fallback_uses_last_ai_message_witness :
  WeatherAgent._extract_response
    (Ok (PDict [("messages",
                 PList [PMessage HumanMessage (PStr "Weather in Hanoi?") [];
                        PMessage AIMessage (PStr "Sunny") []])]))
  = envelope true false (PStr "Sunny") /\
  WeatherAgent._extract_response
    (Ok (PDict [("messages",
                 PList [PMessage AIMessage
                          (PList [PDict [("type", PStr "text"); ("text", PStr "Sunny")];
                                  PDict [("type", PStr "text"); ("text", PStr "31 C")]])
                          []])]))
  = envelope true false (PStr (join newline ["Sunny"; "31 C"])).
Proof.
  split.
  - apply (proj1 (fallback_uses_last_ai_message
                    [("messages",
                      PList [PMessage HumanMessage (PStr "Weather in Hanoi?") [];
                             PMessage AIMessage (PStr "Sunny") []])]
                    _ AIMessage [] eq_refl eq_refl (or_introl eq_refl))
             "Sunny" eq_refl).
    discriminate.
  - apply (proj2 (fallback_uses_last_ai_message
                    [("messages",
                      PList [PMessage AIMessage
                               (PList [PDict [("type", PStr "text"); ("text", PStr "Sunny")];
                                       PDict [("type", PStr "text"); ("text", PStr "31 C")]])
                               []])]
                    _ AIMessage [] eq_refl eq_refl (or_introl eq_refl))
             ["Sunny"; "31 C"] eq_refl).
    discriminate.
Defined.

Section WeatherFallbackFacts.

Import WeatherAgent.

Lemma text_parts_skip part l1 l2 :
  not_text_part part ->
  text_parts (l1 ++ part :: l2) = text_parts (l1 ++ l2).
Proof.
  intros Hpart. induction l1 as [| x l1 IH]; simpl.
  - destruct part; try reflexivity.
    destruct (eq_str (Dict.get "type" PNone d) "text") eqn:E; [| reflexivity].
    apply eq_str_true in E. exfalso. apply (Hpart d eq_refl).
    unfold Dict.get in E.
    destruct (Dict.lookup "type" d); simpl in E; congruence.
  - by rewrite IH.
Qed.

Lemma text_parts_missing_text l1 d l2 :
  Dict.lookup "type" d = Some (PStr "text") ->
  Dict.lookup "text" d = None ->
  exists e, text_parts (l1 ++ PDict d :: l2) = Raise e.
Proof.
  intros Htype Htext. rewrite text_parts_app.
  destruct (text_parts l1) as [xs | e]; simpl; [| by eexists].
  unfold Dict.get. rewrite Htype. simpl. rewrite Htext. simpl. by eexists.
Qed.

End WeatherFallbackFacts.

(** X4. In the fallback, parts of a content list that are not text
    dictionaries (plain strings, image parts) are skipped: the answer is the
    newline-joined texts of the text parts around them. *)
Theorem fallback_skips_other_parts (state : pydict) (messages : list pyval)
    (tool_calls : list pyval) (before after : list string) (part : pyval) :
  Dict.lookup "structured_response" state = None ->
  Dict.lookup "messages" state = Some (PList messages) ->
  last messages
  = Some (PMessage AIMessage
            (PList ((text_part <$> before) ++ part :: (text_part <$> after))%list)
            tool_calls) ->
  not_text_part part ->
  (before ++ after)%list <> [] ->
  WeatherAgent._extract_response (Ok (PDict state))
  = envelope true false (PStr (join newline (before ++ after)%list)).
Proof.
  intros Hnone Hmessages Hlast Hpart Hne.
  rewrite (extract_response_falls_back _ _ Hnone Hmessages),
          (fallback_on_last _ _ _ Hmessages Hlast).
  cbn -[truthy WeatherAgent.text_parts].
  rewrite (text_parts_skip _ _ _ Hpart), <- fmap_app.
  unfold text_part. rewrite text_parts_of_texts. cbn -[truthy].
  assert (truthy (PList (PStr <$> (before ++ after)%list)) = true) as ->
    by by destruct (before ++ after)%list.
  unfold str_join. rewrite strings_of_strs. reflexivity.
Qed.

Lemma fallback_skips_other_parts_witness :
  WeatherAgent._extract_response
    (Ok (PDict [("messages",
                 PList [PMessage AIMessage
                          (PList [text_part "Sunny"; PStr "(raw)";
                                  text_part "31 C"])
                          []])]))
  = envelope true false (PStr (join newline ["Sunny"; "31 C"])).
Proof.
  eapply (fallback_skips_other_parts _ _ [] ["Sunny"] ["31 C"] (PStr "(raw)")).
  - reflexivity.
  - reflexivity.
  - reflexivity.
  - intros d [=].
  - discriminate.
Defined.

(** X5. A text-typed part without a [text] entry makes the fallback raise;
    [_extract_response] catches it, so the caller gets the completed
    envelope 'Could not retrieve agent state' whatever the other parts
    are. *)
Theorem fallback_part_without_text (state : pydict) (messages : list pyval)
    (tool_calls : list pyval) (before after : list pyval) (part : pydict) :
  Dict.lookup "structured_response" state = None ->
  Dict.lookup "messages" state = Some (PList messages) ->
  last messages
  = Some (PMessage AIMessage (PList (before ++ PDict part :: after)%list)
            tool_calls) ->
  Dict.lookup "type" part = Some (PStr "text") ->
  Dict.lookup "text" part = None ->
  WeatherAgent._extract_response (Ok (PDict state))
  = envelope true false (PStr "Could not retrieve agent state").
Proof.
  intros Hnone Hmessages Hlast Htype Htext.
  rewrite (extract_response_falls_back _ _ Hnone Hmessages),
          (fallback_on_last _ _ _ Hmessages Hlast).
  cbn -[truthy WeatherAgent.text_parts].
  destruct (text_parts_missing_text before part after Htype Htext) as [e ->].
  reflexivity.
Qed.

Lemma fallback_part_without_text_witness :
  WeatherAgent._extract_response
    (Ok (PDict [("messages",
                 PList [PMessage AIMessage
                          (PList [text_part "Sunny"; PDict [("type", PStr "text")]])
                          []])]))
  = envelope true false (PStr "Could not retrieve agent state").
Proof.
  eapply (fallback_part_without_text _ _ [] [text_part "Sunny"] []
            [("type", PStr "text")]); reflexivity.
Defined.

(** X6. Without a structured response and without a usable last AI message
    (no messages, a last message that is not an AI message, or an AI message
    with empty text), [_extract_response] answers with the envelope that
    asks the user to try again: not complete, input required. *)
Theorem fallback_without_ai_message (state : pydict) (messages : list pyval) :
  Dict.lookup "structured_response" state = None ->
  Dict.lookup "messages" state = Some (PList messages) ->
  messages = []
  \/ (exists m, last messages = Some m /\ isinstance_AIMessage m = false)
  \/ (exists cls tool_calls, last messages = Some (PMessage cls (PStr "") tool_calls)) ->
  WeatherAgent._extract_response (Ok (PDict state))
  = envelope false true (PStr WeatherAgent.unexpected_format).
Proof.
  intros Hnone Hmessages Hcases.
  rewrite (extract_response_falls_back _ _ Hnone Hmessages).
  destruct Hcases as [-> | [(m & Hlast & Hm) | (cls & tcs & Hlast)]].
  - unfold WeatherAgent._fallback_to_message_content, WeatherAgent.state_field,
      Dict.get. by rewrite Hmessages.
  - by rewrite (fallback_on_last _ _ _ Hmessages Hlast), Hm.
  - rewrite (fallback_on_last _ _ _ Hmessages Hlast). by destruct cls.
Qed.

Lemma fallback_without_ai_message_witness :
  WeatherAgent._extract_response
    (Ok (PDict [("messages", PList [PMessage HumanMessage (PStr "Hi") []])]))
  = envelope false true (PStr WeatherAgent.unexpected_format).
Proof.
  eapply (fallback_without_ai_message _ [PMessage HumanMessage (PStr "Hi") []]).
  - reflexivity.
  - reflexivity.
  - right. left. eexists. split; reflexivity.
Defined.

(** ** The streams as a whole *)

Section StreamFacts.

Variable render : pyval -> string.

Lemma seq_normal {A} (g1 g2 : gen A) :
  raised g1 = None -> G.seq g1 g2 = Gen (yielded g1 ++ yielded g2) (raised g2).
Proof. intros H. unfold G.seq. by rewrite H. Qed.

Lemma astream_chunk_omap chunk :
  WeatherAgent.astream_chunk render chunk
  = Gen (option_list (WeatherAgent._process_stream_chunk render chunk)) None.
Proof.
  unfold WeatherAgent.astream_chunk.
  destruct (WeatherAgent._process_stream_chunk render chunk) as [d |] eqn:E;
    [| reflexivity].
  apply process_stream_chunk_working in E as (content & _ & ->). reflexivity.
Qed.

Lemma for_each_chunks_omap chunks :
  G.for_each chunks (WeatherAgent.astream_chunk render)
  = Gen (omap (WeatherAgent._process_stream_chunk render) chunks) None.
Proof.
  induction chunks as [| chunk chunks IH]; [reflexivity |].
  simpl. rewrite IH, astream_chunk_omap. unfold G.seq. simpl.
  by destruct (WeatherAgent._process_stream_chunk render chunk).
Qed.

Lemma length_omap_le {A B} (f : A -> option B) l :
  length (omap f l) <= length l.
Proof.
  induction l as [| x l IH]; [done |].
  cbn [omap list_omap]. destruct (f x); cbn [length]; lia.
Qed.

End StreamFacts.

(** X7. [WeatherAgent.astream] yields, in stream order, the envelope of each
    chunk that [_process_stream_chunk] lets through, and then exactly one
    closing envelope: the final response when the event stream ends
    normally, the 'Streaming error' envelope when it breaks.  So it yields
    at least one dictionary and at most one more than there were chunks. *)
Theorem astream_yields (render : pyval -> string)
    (chunks : list WeatherAgent.StreamEvent) (get_state : result pyval) :
  WeatherAgent.astream render (Gen chunks None) get_state
  = Gen (omap (WeatherAgent._process_stream_chunk render) chunks
         ++ [WeatherAgent._extract_response get_state])%list None /\
  (forall e,
     WeatherAgent.astream render (Gen chunks (Some e)) get_state
     = Gen (omap (WeatherAgent._process_stream_chunk render) chunks
            ++ [envelope true false (PStr ("Streaming error: " +:+ exn_str e))])%list
           None) /\
  (forall ending,
     1 <= length (yielded (WeatherAgent.astream render (Gen chunks ending)
                                                get_state))
     <= S (length chunks)).
Proof.
  assert (WeatherAgent.astream render (Gen chunks None) get_state
          = Gen (omap (WeatherAgent._process_stream_chunk render) chunks
                 ++ [WeatherAgent._extract_response get_state])%list None)
    as Hnormal.
  { unfold WeatherAgent.astream, G.for_in. simpl.
    rewrite for_each_chunks_omap. unfold G.catch, G.seq. simpl.
    by rewrite app_nil_r. }
  assert (forall e,
     WeatherAgent.astream render (Gen chunks (Some e)) get_state
     = Gen (omap (WeatherAgent._process_stream_chunk render) chunks
            ++ [envelope true false (PStr ("Streaming error: " +:+ exn_str e))])%list
           None) as Hbroken.
  { intros e. rewrite astream_on_error, for_each_chunks_omap. reflexivity. }
  split; [exact Hnormal | split; [exact Hbroken |]].
  pose proof (length_omap_le (WeatherAgent._process_stream_chunk render) chunks)
    as Hle.
  intros [e |]; [rewrite Hbroken | rewrite Hnormal];
    cbn [yielded]; rewrite length_app; cbn [length]; lia.
Qed.

(** ** CurrencyAgent.stream *)

Section CurrencyStreamFacts.

Import CurrencyAgent.

Lemma last_message_of (d : pydict) messages m :
  Dict.lookup "messages" d = Some (PList messages) ->
  last messages = Some m ->
  last_message (PDict d) = Ok m.
Proof.
  intros Hmessages Hlast. unfold last_message. simpl.
  rewrite Hmessages. simpl. by rewrite Hlast.
Qed.

(** An item whose last message can be read contributes at most one
    envelope and does not raise. *)
Lemma stream_item_readable item m :
  last_message item = Ok m ->
  raised (stream_item item) = None /\ length (yielded (stream_item item)) <= 1.
Proof.
  intros Hm. unfold stream_item. rewrite Hm. simpl.
  repeat case_match; simpl; split; (done || lia).
Qed.

Lemma for_each_readable items :
  Forall (fun item => exists m, last_message item = Ok m) items ->
  raised (G.for_each items stream_item) = None
  /\ length (yielded (G.for_each items stream_item)) <= length items.
Proof.
  induction 1 as [| item items (m & Hm) _ (IHr & IHl)]; [done |].
  destruct (stream_item_readable _ _ Hm) as (Hr & Hl).
  simpl. rewrite (seq_normal _ _ Hr). simpl. split; [exact IHr |].
  rewrite length_app. lia.
Qed.

(** Once something has raised, the rest of a sequence does not run. *)
Lemma seq_raised {A} (g1 g2 : gen A) e :
  raised g1 = Some e -> G.seq g1 g2 = g1.
Proof. intros H. unfold G.seq. by rewrite H. Qed.

Lemma for_in_broken_raises {A B} (items : list A) (body : A -> gen B) e :
  raised (G.for_in (Gen items (Some e)) body) <> None.
Proof.
  unfold G.for_in. simpl.
  destruct (raised (G.for_each items body)) as [e' |] eqn:E.
  - rewrite (seq_raised _ _ _ E). by rewrite E.
  - by rewrite (seq_normal _ _ E).
Qed.

End CurrencyStreamFacts.

(** X8. One step of [CurrencyAgent.stream] looks at the last message of the
    streamed state only: an AI message with tool calls gives the
    'Looking up the exchange rates...' envelope, a tool message gives
    'Processing the exchange rates..', both with both flags false, and any
    other last message gives nothing. *)
Theorem stream_item_progress (state : pydict) (messages : list pyval) (m : pyval) :
  Dict.lookup "messages" state = Some (PList messages) ->
  last messages = Some m ->
  (isinstance_AIMessage m = true -> tool_calls_of m <> [] ->
   CurrencyAgent.stream_item (PDict state)
   = Gen [envelope false false (PStr "Looking up the exchange rates...")] None) /\
  (isinstance_ToolMessage m = true ->
   CurrencyAgent.stream_item (PDict state)
   = Gen [envelope false false (PStr "Processing the exchange rates..")] None) /\
  (isinstance_ToolMessage m = false ->
   isinstance_AIMessage m = false \/ tool_calls_of m = [] ->
   CurrencyAgent.stream_item (PDict state) = Gen [] None).
Proof.
  intros Hmessages Hlast. unfold CurrencyAgent.stream_item.
  rewrite (last_message_of _ _ _ Hmessages Hlast). simpl.
  split; [| split].
  - intros -> Hcalls. destruct (tool_calls_of m); [done | reflexivity].
  - intros Htool. destruct m as [| | | | | | | []]; try discriminate Htool.
    reflexivity.
  - intros -> [-> | ->]; [reflexivity |].
    by rewrite andb_false_r.
Qed.

Lemma stream_item_progress_witness :
  CurrencyAgent.stream_item
    (PDict [("messages",
             PList [PMessage HumanMessage (PStr "USD to EUR?") [];
                    PMessage AIMessage (PStr "")
                      [PDict [("name", PStr "get_exchange_rate")]]])])
  = Gen [envelope false false (PStr "Looking up the exchange rates...")] None /\
  CurrencyAgent.stream_item
    (PDict [("messages", PList [PMessage ToolMessage (PStr "0.92") []])])
  = Gen [envelope false false (PStr "Processing the exchange rates..")] None /\
  CurrencyAgent.stream_item
    (PDict [("messages", PList [PMessage HumanMessage (PStr "USD to EUR?") []])])
  = Gen [] None.
Proof.
  split; [| split].
  - apply (proj1 (stream_item_progress
                    [("messages",
                      PList [PMessage HumanMessage (PStr "USD to EUR?") [];
                             PMessage AIMessage (PStr "")
                               [PDict [("name", PStr "get_exchange_rate")]]])]
                    [PMessage HumanMessage (PStr "USD to EUR?") [];
                     PMessage AIMessage (PStr "")
                       [PDict [("name", PStr "get_exchange_rate")]]]
                    (PMessage AIMessage (PStr "")
                       [PDict [("name", PStr "get_exchange_rate")]])
                    eq_refl eq_refl));
      [reflexivity | discriminate].
  - apply (proj1 (proj2 (stream_item_progress
                    [("messages", PList [PMessage ToolMessage (PStr "0.92") []])]
                    [PMessage ToolMessage (PStr "0.92") []]
                    (PMessage ToolMessage (PStr "0.92") [])
                    eq_refl eq_refl)));
      reflexivity.
  - apply (proj2 (proj2 (stream_item_progress
                    [("messages", PList [PMessage HumanMessage (PStr "USD to EUR?") []])]
                    [PMessage HumanMessage (PStr "USD to EUR?") []]
                    (PMessage HumanMessage (PStr "USD to EUR?") [])
                    eq_refl eq_refl)));
      [reflexivity | left; reflexivity].
Defined.

(** X9. When every streamed state has a readable last message and the
    framework's stream and state read succeed, [CurrencyAgent.stream] ends
    normally, its last yield is the final response of
    [get_agent_response], and it yields at most one dictionary per streamed
    state plus that one. *)
Theorem stream_ends_with_final_response (items : list pyval) (values : pydict) :
  Forall (fun item => exists m, CurrencyAgent.last_message item = Ok m) items ->
  let run := CurrencyAgent.stream (Gen items None) (Ok values) in
  raised run = None /\
  (exists final,
     CurrencyAgent.get_agent_response (Ok values) = Ok final
     /\ last (yielded run) = Some final) /\
  length (yielded run) <= S (length items).
Proof.
  intros Hitems.
  destruct (for_each_readable _ Hitems) as (Hr & Hl).
  assert (CurrencyAgent.stream (Gen items None) (Ok values)
          = Gen (yielded (G.for_each items CurrencyAgent.stream_item)
                 ++ match CurrencyAgent.get_agent_response (Ok values) with
                    | Ok final => [final]
                    | Raise _ => []
                    end)%list None) as ->.
  { unfold CurrencyAgent.stream, G.for_in. cbn [yielded raised].
    rewrite (seq_normal _ G.stop Hr). cbn [yielded raised G.stop].
    rewrite app_nil_r.
    unfold G.seq. cbn [yielded raised]. reflexivity. }
  cbn [yielded raised CurrencyAgent.get_agent_response bind].
  split; [done | split].
  - eexists. split; [reflexivity |]. by rewrite last_snoc.
  - rewrite length_app. cbn [length]. lia.
Qed.

Lemma stream_ends_with_final_response_witness :
  last (yielded
          (CurrencyAgent.stream
             (Gen [PDict [("messages", PList [PMessage ToolMessage (PStr "0.92") []])]]
                  None)
             (Ok [("structured_response", PResponse "completed" "1 USD = 0.92 EUR")])))
  = Some (envelope true false (PStr "1 USD = 0.92 EUR")).
Proof.
  destruct (stream_ends_with_final_response
              [PDict [("messages", PList [PMessage ToolMessage (PStr "0.92") []])]]
              [("structured_response", PResponse "completed" "1 USD = 0.92 EUR")])
    as (_ & (final & Hfinal & Hlast) & _).
  - repeat constructor. by eexists.
  - rewrite Hlast. by injection Hfinal as <-.
Defined.

(** X10. [CurrencyAgent.stream] has no handler of its own.  If the
    framework's stream breaks, the generator ends with an exception and the
    final response is never yielded after the break; if the streamed states
    were readable and only the state read fails, that exception comes out
    after the progress envelopes. *)
Theorem stream_lets_exceptions_out (items : list pyval) (e : exn) :
  (forall get_state,
     raised (CurrencyAgent.stream (Gen items (Some e)) get_state) <> None) /\
  (Forall (fun item => exists m, CurrencyAgent.last_message item = Ok m) items ->
   (forall get_state,
      CurrencyAgent.stream (Gen items (Some e)) get_state
      = Gen (yielded (G.for_each items CurrencyAgent.stream_item)) (Some e)) /\
   CurrencyAgent.stream (Gen items None) (Raise e)
   = Gen (yielded (G.for_each items CurrencyAgent.stream_item)) (Some e)).
Proof.
  split.
  - intros get_state. unfold CurrencyAgent.stream.
    pose proof (for_in_broken_raises items CurrencyAgent.stream_item e) as Hne.
    destruct (raised (G.for_in (Gen items (Some e)) CurrencyAgent.stream_item))
      as [e' |] eqn:E; [| done].
    rewrite (seq_raised _ _ _ E). by rewrite E.
  - intros Hitems. destruct (for_each_readable _ Hitems) as (Hr & _).
    split.
    + intros get_state. unfold CurrencyAgent.stream, G.for_in.
      cbn [yielded raised]. rewrite (seq_normal _ _ Hr).
      cbn [yielded raised G.throw]. rewrite app_nil_r.
      by rewrite (seq_raised _ _ e).
    + unfold CurrencyAgent.stream, G.for_in. cbn [yielded raised].
      rewrite (seq_normal _ _ Hr). cbn [yielded raised G.stop].
      rewrite app_nil_r. unfold G.seq. cbn. by rewrite app_nil_r.
Qed.

Lemma stream_lets_exceptions_out_witness :
  CurrencyAgent.stream
    (Gen [PDict [("messages", PList [PMessage ToolMessage (PStr "0.92") []])]]
         None)
    (Raise (Exn "RuntimeError" "checkpoint lost"))
  = Gen [envelope false false (PStr "Processing the exchange rates..")]
        (Some (Exn "RuntimeError" "checkpoint lost")).
Proof.
  apply (proj2 (proj2 (stream_lets_exceptions_out
                         [PDict [("messages",
                                  PList [PMessage ToolMessage (PStr "0.92") []])]]
                         (Exn "RuntimeError" "checkpoint lost"))
                  ltac:(repeat constructor; by eexists))).
Defined.

(** ** The registry and the roster after initialization *)

Section RegistryFacts.

Import RouterAgent.

Context {connection : Type}.
Variable connect : AgentCard -> string -> result connection.
Variable resolve : string -> result AgentCard.

(** What the registry holds for any name after the loop. *)
Lemma registry_lookup_after addresses : forall st key,
  registry (foldl (init_address connect resolve) st addresses) !! key
  = match resolved_handle connect resolve key addresses with
    | Some handle => Some handle
    | None => registry st !! key
    end.
Proof.
  induction addresses as [| address addresses IH]; intros st key; [done |].
  simpl. rewrite IH.
  destruct (resolved_handle connect resolve key addresses); [done |].
  unfold init_address.
  destruct (resolve address) as [card | e]; simpl; [| done].
  destruct (connect card address) as [handle | e]; simpl; [| done].
  destruct (String.eqb_spec (name card) key) as [-> | Hne].
  - apply lookup_insert_eq.
  - by apply lookup_insert_ne.
Qed.

Lemma resolved_handle_none key addresses :
  (forall address card handle,
     address ∈ addresses -> resolve address = Ok card ->
     connect card address = Ok handle -> name card <> key) ->
  resolved_handle connect resolve key addresses = None.
Proof.
  induction addresses as [| address addresses IH]; intros Hno; [done |].
  simpl. rewrite IH by (intros ? ? ? ?; apply Hno; by right).
  destruct (resolve address) as [card | e] eqn:Hcard; [| done].
  destruct (connect card address) as [handle | e] eqn:Hconn; [| done].
  destruct (String.eqb_spec (name card) key) as [Heq | Hne]; [| done].
  exfalso. eapply Hno; eauto. left.
Qed.

(** Assignment in an insertion-ordered dictionary. *)
Lemma set_keys_in {V} k (v : V) d :
  k ∈ d.*1 -> (Dict.set k v d).*1 = d.*1.
Proof.
  induction d as [| [k' v'] d IH]; [by intros ?%elem_of_nil |].
  cbn [Dict.set]. rewrite !fmap_cons. cbn [fst].
  destruct (String.eqb_spec k' k) as [-> | Hne]; [done |].
  intros [? | Hin]%elem_of_cons; [congruence |].
  rewrite fmap_cons. cbn [fst]. f_equal. by apply IH.
Qed.

Lemma set_keys_notin {V} k (v : V) d :
  k ∉ d.*1 -> (Dict.set k v d).*1 = (d.*1 ++ [k])%list.
Proof.
  induction d as [| [k' v'] d IH]; [done |].
  cbn [Dict.set]. rewrite !fmap_cons. cbn [fst].
  intros Hout. destruct (String.eqb_spec k' k) as [-> | Hne].
  - exfalso. apply Hout. left.
  - rewrite fmap_cons. cbn [fst]. rewrite IH; [done |].
    intros Hin. apply Hout. by right.
Qed.

Lemma set_elem {V} k (v : V) d k' v' :
  (k', v') ∈ Dict.set k v d -> (k', v') = (k, v) \/ (k', v') ∈ d.
Proof.
  induction d as [| [k0 v0] d IH]; simpl.
  - intros ->%list_elem_of_singleton. by left.
  - destruct (String.eqb_spec k0 k) as [-> | Hne].
    + intros [-> | Hin]%elem_of_cons; [by left | right; by right].
    + intros [-> | Hin]%elem_of_cons; [right; left |].
      destruct (IH Hin) as [? | ?]; [by left | right; by right].
Qed.

Lemma set_length {V} k (v : V) d : length (Dict.set k v d) <= S (length d).
Proof.
  induction d as [| [k' v'] d IH]; simpl; [lia |].
  destruct (k' =? k); simpl; lia.
Qed.

Lemma set_NoDup {V} k (v : V) d : NoDup d.*1 -> NoDup (Dict.set k v d).*1.
Proof.
  intros Hd. destruct (decide (k ∈ d.*1)) as [Hin | Hout].
  { by rewrite set_keys_in. }
  rewrite set_keys_notin by done.
  apply NoDup_app. split; [done | split].
  - intros x Hx ->%list_elem_of_singleton. done.
  - apply NoDup_singleton.
Qed.

Lemma init_address_invariant seen st address :
  roster_invariant resolve seen st ->
  roster_invariant resolve (seen ++ [address])
    (init_address connect resolve st address).
Proof.
  intros (Hnodup & Hcards & Hlen).
  assert (roster_invariant resolve (seen ++ [address]) st) as Hweak.
  { split; [done | split].
    - intros key card Hin. destruct (Hcards key card Hin) as (? & (a & ? & ?) & ?).
      split; [done | split; [| done]]. exists a. split; [| done].
      apply elem_of_app. by left.
    - rewrite length_app. simpl. lia. }
  unfold init_address.
  destruct (resolve address) as [card | e] eqn:Hcard; simpl; [| exact Hweak].
  destruct (connect card address) as [handle | e] eqn:Hconn; simpl;
    [| exact Hweak].
  split; [| split]; simpl.
  - by apply set_NoDup.
  - intros key card' [[= -> ->] | Hin]%set_elem.
    + split; [done | split].
      * exists address. split; [| done]. apply elem_of_app. right. left.
      * rewrite lookup_insert_eq. by eexists.
    + destruct (Hcards key card' Hin) as (Hname & (a & Ha & Hres) & Hsome).
      split; [done | split].
      * exists a. split; [| done]. apply elem_of_app. by left.
      * apply lookup_insert_is_Some'. by right.
  - rewrite length_app. simpl.
    pose proof (set_length (name card) card (cards st)). lia.
Qed.

Lemma init_invariant addresses : forall seen st,
  roster_invariant resolve seen st ->
  roster_invariant resolve (seen ++ addresses)
    (foldl (init_address connect resolve) st addresses).
Proof.
  induction addresses as [| address addresses IH]; intros seen st Hinv; simpl.
  - by rewrite app_nil_r.
  - replace (seen ++ address :: addresses)%list
      with ((seen ++ [address]) ++ addresses)%list
      by by rewrite <- app_assoc.
    apply IH. by apply init_address_invariant.
Qed.

End RegistryFacts.

(** X11. [_async_init_components] touches only the names that a resolved
    card advertises: for every other name the shared registry answers as it
    did before, so an agent registered by an earlier initialization stays
    routable (and one never registered stays unknown). *)
Theorem registry_keeps_other_names {connection : Type}
    (connect : RouterAgent.AgentCard -> string -> result connection)
    (resolve : string -> result RouterAgent.AgentCard)
    (addresses : list string) (remote_agent_connections : gmap string connection)
    (key : string) :
  (forall address card handle,
     address ∈ addresses -> resolve address = Ok card ->
     connect card address = Ok handle -> RouterAgent.name card <> key) ->
  RouterAgent.registry
    (RouterAgent._async_init_components connect resolve addresses
       remote_agent_connections) !! key
  = remote_agent_connections !! key.
Proof.
  intros Hno. unfold RouterAgent._async_init_components.
  rewrite registry_lookup_after.
  by rewrite (resolved_handle_none connect resolve key addresses Hno).
Qed.

Lemma registry_keeps_other_names_witness :
  RouterAgent.registry
    (RouterAgent._async_init_components
       (fun card address => Ok address)
       (fun _ => Ok (RouterAgent.Card "Weather Agent" "Forecasts"))
       ["http://localhost:10001"]
       {["Airbnb Agent" := "http://localhost:10002"]}) !! "Airbnb Agent"
  = Some "http://localhost:10002".
Proof.
  rewrite (registry_keeps_other_names
             (fun card address => Ok address)
             (fun _ => Ok (RouterAgent.Card "Weather Agent" "Forecasts"))
             ["http://localhost:10001"]
             {["Airbnb Agent" := "http://localhost:10002"]} "Airbnb Agent").
  - apply lookup_singleton_eq.
  - intros address card handle _ [= <-] _. discriminate.
Defined.

(** X13. When no address can be turned into a connection (the card cannot
    be fetched, or the connection cannot be built), initialization changes
    nothing: the registry is as before, no card is listed, and the roster
    text put into the prompt is empty. *)
Theorem init_all_fail {connection : Type}
    (connect : RouterAgent.AgentCard -> string -> result connection)
    (resolve : string -> result RouterAgent.AgentCard)
    (addresses : list string) (remote_agent_connections : gmap string connection) :
  Forall (fun address =>
            forall card, resolve address = Ok card ->
                         exists e, connect card address = Raise e)
         addresses ->
  RouterAgent._async_init_components connect resolve addresses
    remote_agent_connections
  = RouterAgent.Components remote_agent_connections [] /\
  RouterAgent.list_remote_agents [] = [] /\
  forall json_dumps,
    RouterAgent.agents_info json_dumps
      (RouterAgent._async_init_components connect resolve addresses
         remote_agent_connections)
    = "".
Proof.
  intros Hfail.
  assert (RouterAgent._async_init_components connect resolve addresses
            remote_agent_connections
          = RouterAgent.Components remote_agent_connections []) as Heq.
  { unfold RouterAgent._async_init_components.
    generalize (RouterAgent.Components remote_agent_connections []).
    induction Hfail as [| address addresses Hfirst _ IH]; intros st; [done |].
    simpl. rewrite <- (IH st) at 2. f_equal.
    unfold RouterAgent.init_address.
    destruct (resolve address) as [card | e]; [| done]. simpl.
    by destruct (Hfirst card eq_refl) as [e ->]. }
  split; [exact Heq | split; [reflexivity |]].
  intros json_dumps. by rewrite Heq.
Qed.

Lemma init_all_fail_witness :
  RouterAgent._async_init_components
    (fun card address => Ok address)
    (fun _ => Raise (Exn "ConnectError" "connection refused"))
    ["http://localhost:10001"; "http://localhost:10002"]
    {["Airbnb Agent" := "http://localhost:10002"]}
  = RouterAgent.Components {["Airbnb Agent" := "http://localhost:10002"]} [].
Proof.
  apply (init_all_fail
           (fun card address => Ok address)
           (fun _ => Raise (Exn "ConnectError" "connection refused"))).
  repeat constructor; intros card [=].
Defined.

(** X14. The roster built by initialization ([list_remote_agents] over the
    cards) lists no name twice, is no longer than the list of addresses,
    and every entry is the name and description of a card resolved from one
    of the addresses whose name the registry can route. *)
Theorem roster_after_init {connection : Type}
    (connect : RouterAgent.AgentCard -> string -> result connection)
    (resolve : string -> result RouterAgent.AgentCard)
    (addresses : list string) (remote_agent_connections : gmap string connection) :
  let st :=
    RouterAgent._async_init_components connect resolve addresses
      remote_agent_connections in
  let roster := RouterAgent.list_remote_agents (RouterAgent.cards st) in
  NoDup (Dict.get "name" PNone <$> roster) /\
  length roster <= length addresses /\
  (forall entry,
     entry ∈ roster ->
     exists card address,
       address ∈ addresses /\ resolve address = Ok card
       /\ entry = [("name", PStr (RouterAgent.name card));
                   ("description", PStr (RouterAgent.description card))]
       /\ is_Some (RouterAgent.registry st !! RouterAgent.name card)).
Proof.
  intros st roster.
  assert (roster_invariant resolve addresses st) as (Hnodup & Hcards & Hlen).
  { apply (init_invariant connect resolve addresses []
             (RouterAgent.Components remote_agent_connections [])).
    split; [constructor | split; [| done]].
    intros key card Hin. by apply elem_of_nil in Hin. }
  assert (roster
          = (fun '(_, card) =>
               [("name", PStr (RouterAgent.name card));
                ("description", PStr (RouterAgent.description card))])
              <$> RouterAgent.cards st) as Hroster.
  { unfold roster, RouterAgent.list_remote_agents, Dict.values.
    destruct (RouterAgent.cards st) as [| [key c] cards]; [reflexivity |].
    cbn [negb]. rewrite <- list_fmap_compose.
    apply list_fmap_ext. by intros _ [k c'] _. }
  split; [| split].
  - rewrite Hroster, <- list_fmap_compose.
    assert ((Dict.get "name" PNone
               ∘ (fun '(_, card) =>
                    [("name", PStr (RouterAgent.name card));
                     ("description", PStr (RouterAgent.description card))]))
              <$> RouterAgent.cards st
            = PStr <$> (RouterAgent.cards st).*1) as ->.
    { rewrite <- list_fmap_compose. apply list_fmap_ext.
      intros i [key card] Hi. simpl.
      destruct (Hcards key card) as (-> & _); [| done].
      by eapply list_elem_of_lookup_2. }
    apply NoDup_fmap; [| done]. by intros ? ? [=].
  - rewrite Hroster, length_fmap. exact Hlen.
  - intros entry. rewrite Hroster.
    intros ([key card] & -> & Hin)%list_elem_of_fmap.
    destruct (Hcards key card Hin) as (<- & (address & Ha & Hres) & Hsome).
    exists card, address. done.
Qed.

Lemma roster_after_init_witness :
  let resolve (address : string) :=
    if address =? "http://localhost:10002"
    then Ok (RouterAgent.Card "Airbnb Agent" "Finds accommodation")
    else Ok (RouterAgent.Card "Weather Agent" "Forecasts") in
  let connect (card : RouterAgent.AgentCard) (address : string) :=
    Ok address in
  let st :=
    RouterAgent._async_init_components connect resolve
      ["http://localhost:10002"; "http://localhost:10001"] ∅ in
  exists card address,
    resolve address = Ok card
    /\ is_Some (RouterAgent.registry st !! RouterAgent.name card)
    /\ RouterAgent.name card = "Weather Agent".
Proof.
  intros resolve connect st.
  destruct (proj2 (proj2 (roster_after_init connect resolve
                            ["http://localhost:10002"; "http://localhost:10001"]
                            ∅))
              [("name", PStr "Weather Agent"); ("description", PStr "Forecasts")])
    as (card & address & _ & Hres & Hentry & Hsome).
  - right. left.
  - exists card, address. split; [exact Hres | split; [exact Hsome |]].
    by injection Hentry as <- _.
Defined.

(** ** The routing tool's answers *)

Section SendFacts.

Import RouterAgent.

Lemma part_texts_list parts v :
  (texts <- part_texts parts ;; Ok (PList texts)) = Ok v ->
  exists texts, v = PList texts.
Proof. destruct (part_texts parts); simpl; [| done]. intros [= <-]. eauto. Qed.

Lemma read_response_list response v :
  read_response response = Ok v -> exists texts, v = PList texts.
Proof.
  unfold read_response, bind.
  repeat case_match; try discriminate; intros [= <-]; eauto.
Qed.

End SendFacts.

(** X15. Whatever the registry, the transport and the response are,
    [send_agent_message] answers with a list (the texts) or with a
    dictionary whose only key is ['error'], and it sends at most one request:
    the log of sent requests is the old log, possibly with one request
    added. *)
Theorem send_agent_message_answers {connection : Type}
    (send_message : connection -> RouterAgent.SendMessageRequest
                    -> result RouterAgent.SendMessageResponse)
    (registry : gmap string connection) (agent_name text : string)
    (config : RouterAgent.RunnableConfig)
    (sent : list (connection * RouterAgent.SendMessageRequest)) :
  let answer :=
    RouterAgent.send_agent_message send_message registry agent_name text
                                   config sent in
  ((exists texts, answer.1 = PList texts)
   \/ (exists message, answer.1 = PDict [("error", PStr message)])) /\
  (answer.2 = sent \/ exists request, answer.2 = (sent ++ [request])%list).
Proof.
  simpl. unfold RouterAgent.send_agent_message.
  destruct (registry !! agent_name) as [client |]; simpl.
  - split; [| right; eauto].
    destruct (send_message client _) as [response | e]; simpl;
      [| right; unfold RouterAgent.error_dict; eauto].
    destruct (RouterAgent.read_response response) as [v | e] eqn:E; simpl.
    + left. by eapply read_response_list.
    + right. unfold RouterAgent.error_dict. eauto.
  - split; [right; unfold RouterAgent.error_dict; eauto | by left].
Qed.

(** X16. When the remote agent answers with an error response, or with a
    result that has no [artifacts] entry, none ([None]) or an empty list of
    artifacts, [send_agent_message] does not raise: it answers
    [{'error': 'Failed to send message to agent <name>: ...'}]. *)
Theorem send_agent_message_without_artifacts {connection : Type}
    (send_message : connection -> RouterAgent.SendMessageRequest
                    -> result RouterAgent.SendMessageResponse)
    (registry : gmap string connection) (agent_name text : string)
    (config : RouterAgent.RunnableConfig)
    (sent : list (connection * RouterAgent.SendMessageRequest))
    (client : connection) (response : RouterAgent.SendMessageResponse) :
  registry !! agent_name = Some client ->
  send_message client
    (RouterAgent.message_request text (RouterAgent.message_id_of config))
  = Ok response ->
  response = RouterAgent.ErrorResponse
  \/ (exists dump,
        response = RouterAgent.SuccessResponse (PDict dump)
        /\ (Dict.lookup "artifacts" dump = None
            \/ Dict.lookup "artifacts" dump = Some PNone
            \/ Dict.lookup "artifacts" dump = Some (PList []))) ->
  exists detail,
    (RouterAgent.send_agent_message send_message registry agent_name text
                                    config sent).1
    = PDict [("error",
              PStr ("Failed to send message to agent " +:+ agent_name
                    +:+ ": " +:+ detail))].
Proof.
  intros Hclient Hsend Hshape.
  unfold RouterAgent.send_agent_message. rewrite Hclient. simpl.
  rewrite Hsend. simpl. unfold RouterAgent.error_dict.
  destruct Hshape as [-> | (dump & -> & [H | [H | H]])];
    unfold RouterAgent.read_response; simpl; rewrite ?H; simpl; eauto.
Qed.

Lemma send_agent_message_without_artifacts_witness :
  exists detail,
    (RouterAgent.send_agent_message
       (fun (_ : unit) _ =>
          Ok (RouterAgent.SuccessResponse
                (PDict [("id", PStr "task-1"); ("artifacts", PList [])])))
       {["Weather Agent" := tt]} "Weather Agent" "Will it rain?"
       (RouterAgent.Config None) []).1
    = PDict [("error",
              PStr ("Failed to send message to agent Weather Agent: " +:+ detail))].
Proof.
  apply (send_agent_message_without_artifacts
           (fun (_ : unit) _ =>
              Ok (RouterAgent.SuccessResponse
                    (PDict [("id", PStr "task-1"); ("artifacts", PList [])])))
           {["Weather Agent" := tt]} "Weather Agent" "Will it rain?"
           (RouterAgent.Config None) [] tt
           (RouterAgent.SuccessResponse
              (PDict [("id", PStr "task-1"); ("artifacts", PList [])]))).
  - apply lookup_singleton_eq.
  - reflexivity.
  - right. eexists. split; [reflexivity |]. right. right. reflexivity.
Defined.

(** ** The executor driving the agent's stream *)

Section ExecuteStreamFacts.

Import Executor Executor.WeatherAgentExecutor.
Local Open Scope list_scope.

Variable render : pyval -> string.
Variable new_task : pyval -> Task.

(** The event for a progress envelope with a text. *)
Lemma translate_progress task (content : string) :
  translate task (envelope false false (PStr content))
  = Ok [TaskStatusUpdateEvent
          (Status working
             (Some (TextMessage content (Some (contextId task)) (Some (id task)))))
          false (contextId task) (id task)].
Proof. reflexivity. Qed.

Lemma translate_text_envelope task c r (content : string) :
  exists out, translate task (envelope c r (PStr content)) = Ok out.
Proof. destruct c, r; eexists; reflexivity. Qed.

(** A progress envelope whose content is not a string is refused by the
    message constructor. *)
Lemma translate_progress_refused task content :
  is_str content = false ->
  translate task (envelope false false content) = Raise not_a_string.
Proof. by destruct content. Qed.

(** The text chunks that pass the filter translate to progress events. *)
Lemma progress_events task chunks :
  streams_text render chunks ->
  Forall2 (fun event out => translate task event = Ok out)
          (omap (WeatherAgent._process_stream_chunk render) chunks)
          ((fun d => [progress_event task d])
             <$> omap (WeatherAgent._process_stream_chunk render) chunks).
Proof.
  unfold streams_text.
  induction chunks as [| chunk chunks IH]; intros Htext; [constructor |].
  cbn [omap list_omap] in *.
  destruct (WeatherAgent._process_stream_chunk render chunk) as [d |] eqn:E;
    [| by apply IH].
  apply Forall_cons in Htext as (Hd & Htext).
  apply process_stream_chunk_working in E as (content & _ & ->).
  destruct content; try discriminate Hd.
  rewrite fmap_cons. constructor; [apply translate_progress | by apply IH].
Qed.

Lemma concat_singletons {A B} (f : A -> B) (l : list A) :
  concat ((fun x => [f x]) <$> l) = f <$> l.
Proof.
  induction l as [| x l IH]; [done |].
  rewrite !fmap_cons. cbn [concat app]. by rewrite IH.
Qed.

Lemma progress_events_not_final task (l : list pydict) :
  Forall (fun ev => is_final ev = false) (progress_event task <$> l).
Proof. induction l; constructor; done. Qed.

(** The closing envelope of a run: the final response, or the error
    envelope when the event stream broke. *)
Lemma astream_closing chunks ending get_state :
  WeatherAgent.astream render (Gen chunks ending) get_state
  = Gen (omap (WeatherAgent._process_stream_chunk render) chunks
         ++ [match ending with
             | None => WeatherAgent._extract_response get_state
             | Some e =>
                 envelope true false (PStr ("Streaming error: " +:+ exn_str e))
             end])
        None.
Proof.
  destruct ending as [e |].
  - rewrite astream_on_error, for_each_chunks_omap. reflexivity.
  - unfold WeatherAgent.astream, G.for_in. simpl.
    rewrite for_each_chunks_omap. unfold G.catch, G.seq. simpl.
    by rewrite app_nil_r.
Qed.

Lemma closing_is_text_envelope ending get_state :
  exists c r (content : string),
    match ending with
    | None => WeatherAgent._extract_response get_state
    | Some e => envelope true false (PStr ("Streaming error: " +:+ exn_str e))
    end = envelope c r (PStr content).
Proof.
  destruct ending as [e |]; [by eexists _, _, _ |].
  pose proof (extract_response_text get_state) as Htext.
  destruct (extract_response_exclusive get_state) as (c & r & x & Heq & _).
  rewrite Heq in Htext |- *.
  destruct x; try discriminate Htext. by eexists _, _, _.
Qed.

(** The loop stops at the first dictionary that does not translate, with
    the events of those before it enqueued. *)
Lemma consume_until task events1 event events2 e : forall outs event_queue,
  Forall2 (fun event out => translate task event = Ok out) events1 outs ->
  translate task event = Raise e ->
  consume task (events1 ++ event :: events2) event_queue
  = (Raise e, event_queue ++ concat outs).
Proof.
  induction events1 as [| first events1 IH]; intros outs event_queue Hall Hbad.
  - apply Forall2_nil_inv_l in Hall as ->. simpl. rewrite Hbad.
    by rewrite app_nil_r.
  - apply Forall2_cons_inv_l in Hall as (out & outs' & Hout & Hall & ->).
    simpl. rewrite Hout, (IH _ _ Hall Hbad). by rewrite <- app_assoc.
Qed.

(** The queue after [execute] over the agent's stream of text chunks. *)
Lemma execute_structure chunks ending get_state context event_queue message :
  context_message context = Some message ->
  streams_text render chunks ->
  let task := default (new_task message) (current_task context) in
  exists closing,
    execute new_task
      (fun _ _ => WeatherAgent.astream render (Gen chunks ending) get_state)
      context event_queue
    = (Ok tt,
       event_queue
       ++ match current_task context with
          | Some _ => []
          | None => [TaskCreated task]
          end
       ++ (progress_event task
             <$> omap (WeatherAgent._process_stream_chunk render) chunks)
       ++ closing)
    /\ translate task
         match ending with
         | None => WeatherAgent._extract_response get_state
         | Some e =>
             envelope true false (PStr ("Streaming error: " +:+ exn_str e))
         end
       = Ok closing.
Proof.
  intros Hmessage Htext task.
  destruct (closing_is_text_envelope ending get_state) as (c & r & x & Hshape).
  destruct (translate_text_envelope task c r x) as (closing & Hclosing).
  pose proof (progress_events task chunks Htext) as Hall.
  exists closing. rewrite Hshape. split; [| exact Hclosing].
  unfold execute. rewrite Hmessage, astream_closing, Hshape.
  cbn [yielded raised].
  assert (Forall2 (fun event out => translate task event = Ok out)
            (omap (WeatherAgent._process_stream_chunk render) chunks
             ++ [envelope c r (PStr x)])
            (((fun d => [progress_event task d])
                <$> omap (WeatherAgent._process_stream_chunk render) chunks)
             ++ [closing])) as Hall'.
  { apply Forall2_app; [exact Hall |]. by repeat constructor. }
  subst task. destruct (current_task context) as [task |]; cbn [default] in *.
  - rewrite (consume_all _ _ _ _ Hall'), concat_app, concat_singletons. simpl.
    by rewrite app_nil_r.
  - rewrite (consume_all _ _ _ _ Hall'), concat_app, concat_singletons. simpl.
    by rewrite app_nil_r, <- !app_assoc.
Qed.

(** The run up to a chunk whose content the message constructor refuses. *)
Lemma execute_refused before bad after content ending get_state context
    event_queue message :
  context_message context = Some message ->
  streams_text render before ->
  WeatherAgent._process_stream_chunk render bad
  = Some (envelope false false content) ->
  is_str content = false ->
  let task := default (new_task message) (current_task context) in
  execute new_task
    (fun _ _ =>
       WeatherAgent.astream render (Gen (before ++ bad :: after) ending)
                            get_state)
    context event_queue
  = (Raise not_a_string,
     event_queue
     ++ match current_task context with
        | Some _ => []
        | None => [TaskCreated task]
        end
     ++ (progress_event task
           <$> omap (WeatherAgent._process_stream_chunk render) before)).
Proof.
  intros Hmessage Htext Hbad Hcontent task.
  pose proof (progress_events task before Htext) as Hall.
  pose proof (translate_progress_refused task content Hcontent) as Hrefused.
  unfold execute. rewrite Hmessage, astream_closing. cbn [yielded raised].
  rewrite omap_app. cbn [omap list_omap]. rewrite Hbad.
  rewrite <- !app_assoc. cbn [app].
  subst task. destruct (current_task context) as [task |]; cbn [default] in *.
  - rewrite (consume_until _ _ _ _ _ _ _ Hall Hrefused), concat_singletons.
    reflexivity.
  - rewrite (consume_until _ _ _ _ _ _ _ Hall Hrefused), concat_singletons.
    by rewrite <- !app_assoc.
Qed.

End ExecuteStreamFacts.

(** X17. [WeatherAgentExecutor.execute] over the agent's own stream: without
    a message in the context it raises 'No message provided' and enqueues
    nothing.  With a message, and chunks whose content is text, it does not
    raise, whatever the framework's stream and state do, and the queue
    becomes the old queue, the new task if the context had none, one
    non-final [working] update per chunk that passes the filter, in order,
    and the events for the closing envelope of the stream. *)
Theorem execute_over_agent_stream (render : pyval -> string)
    (new_task : pyval -> Executor.Task)
    (chunks : list WeatherAgent.StreamEvent) (ending : option exn)
    (get_state : result pyval) (context : Executor.RequestContext)
    (event_queue : list Executor.queue_event) :
  let run :=
    Executor.WeatherAgentExecutor.execute new_task
      (fun _ _ => WeatherAgent.astream render (Gen chunks ending) get_state)
      context event_queue in
  (Executor.context_message context = None ->
   run = (Raise (Exn "Exception" "No message provided"), event_queue)) /\
  (forall message,
     Executor.context_message context = Some message ->
     streams_text render chunks ->
     let task := default (new_task message) (Executor.current_task context) in
     exists closing,
       run
       = (Ok tt,
          event_queue
          ++ match Executor.current_task context with
             | Some _ => []
             | None => [Executor.TaskCreated task]
             end
          ++ (progress_event task
                <$> omap (WeatherAgent._process_stream_chunk render) chunks)
          ++ closing)%list
       /\ Executor.WeatherAgentExecutor.translate task
            match ending with
            | None => WeatherAgent._extract_response get_state
            | Some e =>
                envelope true false (PStr ("Streaming error: " +:+ exn_str e))
            end
          = Ok closing).
Proof.
  split.
  - intros Hnone. unfold Executor.WeatherAgentExecutor.execute.
    by rewrite Hnone.
  - intros message Hmessage Htext. by apply execute_structure.
Qed.

Lemma execute_over_agent_stream_witness :
  let chunks :=
    [WeatherAgent.Chunk (Some (PStr "on_tool_start"))
       (Some [("name", PStr "get_forecast")]);
     WeatherAgent.Chunk (Some (PStr "on_chain_end")) (Some []);
     WeatherAgent.Chunk (Some (PStr "on_chat_model_stream"))
       (Some [("chunk", PMessage AIMessageChunk (PStr "Sunny") [])])] in
  let state :=
    Ok (PDict [("structured_response", PResponse "completed" "Sunny, 31 C")]) in
  let astream (_ _ : string) :=
    WeatherAgent.astream (fun _ => "?") (Gen chunks None) state in
  let new_task (_ : pyval) := Executor.NewTask "task-1" "ctx-1" in
  Executor.WeatherAgentExecutor.execute new_task astream
    (Executor.Context None None "") []
  = (Raise (Exn "Exception" "No message provided"), []) /\
  Executor.WeatherAgentExecutor.execute new_task astream
    (Executor.Context (Some (PStr "Will it rain?")) None "Will it rain?") []
  = (Ok tt,
     [Executor.TaskCreated (Executor.NewTask "task-1" "ctx-1");
      Executor.TaskStatusUpdateEvent
        (Executor.Status Executor.working
           (Some (Executor.TextMessage "Using tool: get_forecast..."
                    (Some "ctx-1") (Some "task-1"))))
        false "ctx-1" "task-1";
      Executor.TaskStatusUpdateEvent
        (Executor.Status Executor.working
           (Some (Executor.TextMessage "Sunny" (Some "ctx-1") (Some "task-1"))))
        false "ctx-1" "task-1";
      Executor.TaskArtifactUpdateEvent false "ctx-1" "task-1" true
        (Executor.TextArtifact "current_result" "Result of request to agent."
           "Sunny, 31 C");
      Executor.TaskStatusUpdateEvent
        (Executor.Status Executor.completed None) true "ctx-1" "task-1"]).
Proof.
  intros chunks state astream new_task. split.
  - apply (proj1 (execute_over_agent_stream (fun _ => "?") new_task chunks None
                    state (Executor.Context None None "") [])).
    reflexivity.
  - destruct (proj2 (execute_over_agent_stream (fun _ => "?") new_task chunks
                       None state
                       (Executor.Context (Some (PStr "Will it rain?")) None
                          "Will it rain?") [])
                (PStr "Will it rain?") eq_refl
                ltac:(repeat constructor))
      as (closing & Hrun & Hclosing).
    injection Hclosing as <-. exact Hrun.
Defined.

(** X18. A stream of text chunks that breaks is reported as a finished
    task: after the progress updates, the run enqueues an artifact whose
    text is 'Streaming error: <error>' followed by a final status update in
    state [completed]; everything the run enqueued before them is
    non-final. *)
Theorem broken_stream_completes_task (render : pyval -> string)
    (new_task : pyval -> Executor.Task)
    (chunks : list WeatherAgent.StreamEvent) (e : exn)
    (get_state : result pyval) (context : Executor.RequestContext)
    (event_queue : list Executor.queue_event) (message : pyval) :
  Executor.context_message context = Some message ->
  streams_text render chunks ->
  let task := default (new_task message) (Executor.current_task context) in
  let progress :=
    progress_event task
      <$> omap (WeatherAgent._process_stream_chunk render) chunks in
  Executor.WeatherAgentExecutor.execute new_task
    (fun _ _ => WeatherAgent.astream render (Gen chunks (Some e)) get_state)
    context event_queue
  = (Ok tt,
     event_queue
     ++ match Executor.current_task context with
        | Some _ => []
        | None => [Executor.TaskCreated task]
        end
     ++ progress
     ++ [Executor.TaskArtifactUpdateEvent false (Executor.contextId task)
           (Executor.id task) true
           (Executor.TextArtifact "current_result"
              "Result of request to agent."
              ("Streaming error: " +:+ exn_str e));
         Executor.TaskStatusUpdateEvent
           (Executor.Status Executor.completed None) true
           (Executor.contextId task) (Executor.id task)])%list
  /\ Forall (fun ev => is_final ev = false) progress.
Proof.
  intros Hmessage Htext task progress.
  destruct (execute_structure render new_task chunks (Some e) get_state
              context event_queue message Hmessage Htext)
    as (closing & Hrun & Hclosing).
  injection Hclosing as <-.
  split; [exact Hrun | apply progress_events_not_final].
Qed.

Lemma broken_stream_completes_task_witness :
  Executor.WeatherAgentExecutor.execute
    (fun _ => Executor.NewTask "task-1" "ctx-1")
    (fun _ _ =>
       WeatherAgent.astream (fun _ => "?")
         (Gen [WeatherAgent.Chunk (Some (PStr "on_tool_start"))
                 (Some [("name", PStr "get_forecast")])]
              (Some (Exn "TimeoutError" "model timed out")))
         (Ok PNone))
    (Executor.Context (Some (PStr "Will it rain?"))
       (Some (Executor.NewTask "task-7" "ctx-7")) "Will it rain?") []
  = (Ok tt,
     [Executor.TaskStatusUpdateEvent
        (Executor.Status Executor.working
           (Some (Executor.TextMessage "Using tool: get_forecast..."
                    (Some "ctx-7") (Some "task-7"))))
        false "ctx-7" "task-7";
      Executor.TaskArtifactUpdateEvent false "ctx-7" "task-7" true
        (Executor.TextArtifact "current_result" "Result of request to agent."
           "Streaming error: model timed out");
      Executor.TaskStatusUpdateEvent
        (Executor.Status Executor.completed None) true "ctx-7" "task-7"]).
Proof.
  apply (proj1 (broken_stream_completes_task (fun _ => "?")
                  (fun _ => Executor.NewTask "task-1" "ctx-1")
                  [WeatherAgent.Chunk (Some (PStr "on_tool_start"))
                     (Some [("name", PStr "get_forecast")])]
                  (Exn "TimeoutError" "model timed out") (Ok PNone)
                  (Executor.Context (Some (PStr "Will it rain?"))
                     (Some (Executor.NewTask "task-7" "ctx-7")) "Will it rain?")
                  [] (PStr "Will it rain?") eq_refl
                  ltac:(repeat constructor))).
Defined.

(** X19. When the agent's structured response has status ['error'] and a
    stream of text chunks ends normally, the run enqueues no final event at
    all: after the progress updates its last event is a non-final status
    update in state [working] carrying the response's message. *)
Theorem error_status_leaves_task_working (render : pyval -> string)
    (new_task : pyval -> Executor.Task)
    (chunks : list WeatherAgent.StreamEvent) (state : pydict)
    (response_message : string) (context : Executor.RequestContext)
    (event_queue : list Executor.queue_event) (message : pyval) :
  Executor.context_message context = Some message ->
  streams_text render chunks ->
  Dict.lookup "structured_response" state
  = Some (PResponse "error" response_message) ->
  let task := default (new_task message) (Executor.current_task context) in
  let added :=
    (match Executor.current_task context with
     | Some _ => []
     | None => [Executor.TaskCreated task]
     end
     ++ (progress_event task
           <$> omap (WeatherAgent._process_stream_chunk render) chunks)
     ++ [Executor.TaskStatusUpdateEvent
           (Executor.Status Executor.working
              (Some (Executor.TextMessage response_message
                       (Some (Executor.contextId task))
                       (Some (Executor.id task)))))
           false (Executor.contextId task) (Executor.id task)])%list in
  Executor.WeatherAgentExecutor.execute new_task
    (fun _ _ =>
       WeatherAgent.astream render (Gen chunks None) (Ok (PDict state)))
    context event_queue
  = (Ok tt, (event_queue ++ added)%list)
  /\ Forall (fun ev => is_final ev = false) added.
Proof.
  intros Hmessage Htext Hstate task added.
  destruct (execute_structure render new_task chunks None (Ok (PDict state))
              context event_queue message Hmessage Htext)
    as (closing & Hrun & Hclosing).
  assert (WeatherAgent._extract_response (Ok (PDict state))
          = envelope false false (PStr response_message)) as Hresponse.
  { unfold WeatherAgent._extract_response, WeatherAgent.state_field, Dict.get.
    cbn -[truthy]. by rewrite (lookup_some_truthy _ _ _ Hstate), Hstate. }
  rewrite Hresponse in Hclosing. injection Hclosing as <-.
  split; [exact Hrun |].
  unfold added. apply Forall_app. split.
  - by destruct (Executor.current_task context); repeat constructor.
  - apply Forall_app. split; [apply progress_events_not_final |].
    by repeat constructor.
Qed.

Lemma error_status_leaves_task_working_witness :
  Executor.WeatherAgentExecutor.execute
    (fun _ => Executor.NewTask "task-1" "ctx-1")
    (fun _ _ =>
       WeatherAgent.astream (fun _ => "?")
         (Gen [WeatherAgent.Chunk (Some (PStr "on_chat_model_stream"))
                 (Some [("chunk", PMessage AIMessageChunk (PStr "Sorry") [])])]
              None)
         (Ok (PDict [("structured_response", PResponse "error" "No such city")])))
    (Executor.Context (Some (PStr "Weather in Atlantis?")) None "") []
  = (Ok tt,
     [Executor.TaskCreated (Executor.NewTask "task-1" "ctx-1");
      Executor.TaskStatusUpdateEvent
        (Executor.Status Executor.working
           (Some (Executor.TextMessage "Sorry" (Some "ctx-1") (Some "task-1"))))
        false "ctx-1" "task-1";
      Executor.TaskStatusUpdateEvent
        (Executor.Status Executor.working
           (Some (Executor.TextMessage "No such city"
                    (Some "ctx-1") (Some "task-1"))))
        false "ctx-1" "task-1"]).
Proof.
  apply (proj1 (error_status_leaves_task_working (fun _ => "?")
                  (fun _ => Executor.NewTask "task-1" "ctx-1")
                  [WeatherAgent.Chunk (Some (PStr "on_chat_model_stream"))
                     (Some [("chunk", PMessage AIMessageChunk (PStr "Sorry") [])])]
                  [("structured_response", PResponse "error" "No such city")]
                  "No such city"
                  (Executor.Context (Some (PStr "Weather in Atlantis?")) None "")
                  [] (PStr "Weather in Atlantis?") eq_refl
                  ltac:(repeat constructor) eq_refl)).
Defined.

(** X25. A model-stream chunk whose content is not a string (a list of
    parts) goes through the filter and stops the executor: the message
    constructor refuses the content, [execute] has no handler, so it raises
    after the progress updates of the chunks before, and neither the later
    chunks nor the closing envelope are turned into events. *)
Theorem list_content_chunk_stops_execute (render : pyval -> string)
    (new_task : pyval -> Executor.Task)
    (before after : list WeatherAgent.StreamEvent)
    (bad : WeatherAgent.StreamEvent) (content : pyval)
    (tool_calls : list pyval) (ending : option exn)
    (get_state : result pyval) (context : Executor.RequestContext)
    (event_queue : list Executor.queue_event) (message : pyval) :
  Executor.context_message context = Some message ->
  streams_text render before ->
  WeatherAgent.event bad = Some (PStr "on_chat_model_stream") ->
  Dict.lookup "chunk" (default [] (WeatherAgent.data bad))
  = Some (PMessage AIMessageChunk content tool_calls) ->
  truthy content = true ->
  is_str content = false ->
  let task := default (new_task message) (Executor.current_task context) in
  Executor.WeatherAgentExecutor.execute new_task
    (fun _ _ =>
       WeatherAgent.astream render
         (Gen (before ++ bad :: after)%list ending) get_state)
    context event_queue
  = (Raise Executor.not_a_string,
     event_queue
     ++ match Executor.current_task context with
        | Some _ => []
        | None => [Executor.TaskCreated task]
        end
     ++ (progress_event task
           <$> omap (WeatherAgent._process_stream_chunk render) before))%list.
Proof.
  intros Hmessage Htext Hevent Hchunk Htruthy Hcontent task.
  apply (execute_refused render new_task before bad after content);
    try done.
  destruct bad as [event data]. simpl in *. subst event.
  unfold WeatherAgent._process_stream_chunk, Dict.get. cbn -[truthy].
  rewrite Hchunk. cbn -[truthy]. rewrite Htruthy. by rewrite Htruthy.
Qed.

Lemma list_content_chunk_stops_execute_witness :
  Executor.WeatherAgentExecutor.execute
    (fun _ => Executor.NewTask "task-1" "ctx-1")
    (fun _ _ =>
       WeatherAgent.astream (fun _ => "?")
         (Gen [WeatherAgent.Chunk (Some (PStr "on_tool_start"))
                 (Some [("name", PStr "get_forecast")]);
               WeatherAgent.Chunk (Some (PStr "on_chat_model_stream"))
                 (Some [("chunk",
                         PMessage AIMessageChunk (PList [text_part "Hanoi"]) [])]);
               WeatherAgent.Chunk (Some (PStr "on_chat_model_stream"))
                 (Some [("chunk", PMessage AIMessageChunk (PStr "Sunny") [])])]
              None)
         (Ok (PDict [("structured_response", PResponse "completed" "Sunny")])))
    (Executor.Context (Some (PStr "Will it rain?")) None "Will it rain?") []
  = (Raise Executor.not_a_string,
     [Executor.TaskCreated (Executor.NewTask "task-1" "ctx-1");
      Executor.TaskStatusUpdateEvent
        (Executor.Status Executor.working
           (Some (Executor.TextMessage "Using tool: get_forecast..."
                    (Some "ctx-1") (Some "task-1"))))
        false "ctx-1" "task-1"]).
Proof.
  apply (list_content_chunk_stops_execute (fun _ => "?")
           (fun _ => Executor.NewTask "task-1" "ctx-1")
           [WeatherAgent.Chunk (Some (PStr "on_tool_start"))
              (Some [("name", PStr "get_forecast")])]
           [WeatherAgent.Chunk (Some (PStr "on_chat_model_stream"))
              (Some [("chunk", PMessage AIMessageChunk (PStr "Sunny") [])])]
           (WeatherAgent.Chunk (Some (PStr "on_chat_model_stream"))
              (Some [("chunk",
                      PMessage AIMessageChunk (PList [text_part "Hanoi"]) [])]))
           (PList [text_part "Hanoi"]) [] None
           (Ok (PDict [("structured_response", PResponse "completed" "Sunny")]))
           (Executor.Context (Some (PStr "Will it rain?")) None "Will it rain?")
           [] (PStr "Will it rain?") eq_refl
           ltac:(repeat constructor) eq_refl eq_refl eq_refl eq_refl).
Defined.

(** ** The host application's chat handler *)

Section HostFacts.

Import HostApp.

Variable render : pyval -> string.

(** The events of plain text chunks. *)
Lemma handle_text_events pieces : forall acc,
  handle_events render
    ((fun s => Event (Some (AIChunk (PStr s) []))) <$> pieces) acc
  = Gen (Chat "assistant" <$> running_text (text_content acc) pieces) None.
Proof.
  induction pieces as [| piece pieces IH]; intros acc; [reflexivity |].
  rewrite fmap_cons. cbn [handle_events running_text].
  assert (handle_event render (Event (Some (AIChunk (PStr piece) []))) acc
          = Ok ([Chat "assistant" (text_content acc +:+ piece)],
                Buffers (text_content acc +:+ piece) (tool_content acc)))
    as -> by reflexivity.
  rewrite IH. reflexivity.
Qed.

Lemma handle_events_app events1 events2 : forall acc,
  raised (handle_events render events1 acc) = None ->
  exists acc',
    handle_events render (events1 ++ events2) acc
    = G.seq (handle_events render events1 acc)
            (handle_events render events2 acc').
Proof.
  induction events1 as [| event events1 IH]; intros acc Hok.
  - exists acc. cbn [app handle_events]. unfold G.seq, G.stop.
    cbn [yielded raised app]. by destruct (handle_events render events2 acc).
  - simpl in *. destruct (handle_event render event acc) as [[out acc1] | e];
      [| done].
    assert (raised (handle_events render events1 acc1) = None) as Hok1.
    { unfold G.seq in Hok. simpl in Hok. exact Hok. }
    destruct (IH acc1 Hok1) as (acc' & ->). exists acc'.
    unfold G.seq. simpl. rewrite Hok1. simpl. by rewrite app_assoc.
Qed.

Lemma get_response_never_raises events :
  raised (get_response_from_agent render events) = None.
Proof. unfold get_response_from_agent. by apply raised_catch. Qed.

End HostFacts.

Section HostHandlerFacts.

Import HostApp.

Variable render : pyval -> string.

Lemma handle_events_skip before after v : forall acc,
  handle_events render (before ++ Event (Some (NotAIChunk v)) :: after) acc
  = handle_events render (before ++ after) acc.
Proof.
  induction before as [| event before IH]; intros acc.
  - cbn [app handle_events].
    assert (handle_event render (Event (Some (NotAIChunk v))) acc
            = Ok ([], acc)) as -> by reflexivity.
    unfold G.seq. cbn [yielded raised app].
    by destruct (handle_events render after acc).
  - cbn [app handle_events].
    destruct (handle_event render event acc) as [[out acc'] | e]; [| done].
    by rewrite IH.
Qed.

Lemma catch_raised_last {A} (g : gen A) (x : A) :
  raised g <> None ->
  G.catch g (fun _ => G.yield x) = Gen (yielded g ++ [x]) None.
Proof. intros Hne. unfold G.catch. by destruct (raised g). Qed.

End HostHandlerFacts.

(** X20. The chat handler [get_response_from_agent] never lets an exception
    out, and whenever the framework's event stream breaks, the last message
    it yields is the fixed assistant message 'An error occurred while
    processing your request...'. *)
Theorem chat_handler_reports_errors (render : pyval -> string)
    (events : list HostApp.StreamEvent) :
  (forall ending,
     raised (HostApp.get_response_from_agent render (Gen events ending)) = None) /\
  (forall e,
     last (yielded (HostApp.get_response_from_agent render
                      (Gen events (Some e))))
     = Some (HostApp.Chat "assistant" HostApp.error_message)).
Proof.
  split; [intros; apply get_response_never_raises |].
  intros e. unfold HostApp.get_response_from_agent. cbn [yielded raised].
  rewrite catch_raised_last; [apply last_snoc |].
  destruct (raised (HostApp.handle_events render events
                      (HostApp.Buffers "" ""))) as [e' |] eqn:E.
  - rewrite (seq_raised _ _ _ E). by rewrite E.
  - by rewrite (seq_normal _ _ E).
Qed.

(** X21. For a stream of plain text chunks (AI message chunks without
    additional keyword data) the chat handler yields one assistant message
    per chunk, each holding all the text received so far. *)
Theorem chat_handler_accumulates_text (render : pyval -> string)
    (pieces : list string) :
  HostApp.get_response_from_agent render
    (Gen ((fun s => HostApp.Event (Some (HostApp.AIChunk (PStr s) [])))
            <$> pieces)
         None)
  = Gen (HostApp.Chat "assistant" <$> running_text "" pieces) None.
Proof.
  unfold HostApp.get_response_from_agent. cbn [yielded raised].
  rewrite handle_text_events. unfold G.catch, G.seq. cbn.
  by rewrite app_nil_r.
Qed.

(** X22. Events whose data carries no AI message chunk (no chunk at all, or
    a value of another type) are ignored by the chat handler: dropping such
    an event from the stream changes nothing of what is yielded. *)
Theorem chat_handler_ignores_other_events (render : pyval -> string)
    (before after : list HostApp.StreamEvent) (v : pyval)
    (ending : option exn) :
  HostApp.get_response_from_agent render
    (Gen (before ++ HostApp.Event (Some (HostApp.NotAIChunk v)) :: after)%list
         ending)
  = HostApp.get_response_from_agent render (Gen (before ++ after)%list ending).
Proof.
  unfold HostApp.get_response_from_agent. cbn [yielded raised].
  by rewrite handle_events_skip.
Qed.

(** X23. A chunk the handler cannot process ends the answer: an event
    without [data], an AI chunk whose non-empty [additional_kwargs] has no
    tool calls (no entry, or an empty list), or an AI chunk without keyword
    data whose content is not a string.  After text chunks, the handler
    yields the texts so far, then the fixed error message, and nothing of
    the events after the bad one. *)
Theorem chat_handler_stops_at_bad_chunk (render : pyval -> string)
    (pieces : list string) (bad : HostApp.StreamEvent)
    (rest : list HostApp.StreamEvent) (ending : option exn) :
  HostApp.data bad = None
  \/ (exists content additional_kwargs,
        HostApp.data bad = Some (HostApp.AIChunk content additional_kwargs)
        /\ additional_kwargs <> []
        /\ (Dict.lookup "tool_calls" additional_kwargs = None
            \/ Dict.lookup "tool_calls" additional_kwargs = Some (PList [])))
  \/ (exists content,
        HostApp.data bad = Some (HostApp.AIChunk content [])
        /\ is_str content = false) ->
  HostApp.get_response_from_agent render
    (Gen (((fun s => HostApp.Event (Some (HostApp.AIChunk (PStr s) [])))
             <$> pieces) ++ bad :: rest)%list
         ending)
  = Gen ((HostApp.Chat "assistant" <$> running_text "" pieces)
         ++ [HostApp.Chat "assistant" HostApp.error_message])%list
        None.
Proof.
  intros Hbad.
  assert (forall acc, exists e, HostApp.handle_event render bad acc = Raise e)
    as Hraise.
  { intros acc. unfold HostApp.handle_event.
    destruct Hbad as [-> | [(content & kw & -> & Hkw & Hcalls)
                           | (content & -> & Hcontent)]].
    - by eexists.
    - assert (truthy (PDict kw) = true) as -> by by destruct kw.
      unfold Dict.get. destruct Hcalls as [-> | ->]; simpl; by eexists.
    - simpl. destruct content; try discriminate Hcontent; by eexists. }
  unfold HostApp.get_response_from_agent. cbn [yielded raised].
  destruct (handle_events_app render
              ((fun s => HostApp.Event (Some (HostApp.AIChunk (PStr s) [])))
                 <$> pieces)
              (bad :: rest) (HostApp.Buffers "" ""))
    as (acc' & ->).
  { by rewrite handle_text_events. }
  rewrite handle_text_events. cbn [HostApp.handle_events].
  destruct (Hraise acc') as (e & ->). cbn [HostApp.text_content].
  unfold G.catch, G.seq, G.throw. cbn [yielded raised].
  by rewrite app_nil_r.
Qed.

Lemma chat_handler_stops_at_bad_chunk_witness :
  HostApp.get_response_from_agent (fun _ => "?")
    (Gen [HostApp.Event (Some (HostApp.AIChunk (PStr "It is ") []));
          HostApp.Event (Some (HostApp.AIChunk (PStr "")
                                 [("refusal", PStr "no")]));
          HostApp.Event (Some (HostApp.AIChunk (PStr "sunny") []))]
         None)
  = Gen [HostApp.Chat "assistant" "It is ";
         HostApp.Chat "assistant" HostApp.error_message] None.
Proof.
  apply (chat_handler_stops_at_bad_chunk (fun _ => "?") ["It is "]
           (HostApp.Event (Some (HostApp.AIChunk (PStr "")
                                   [("refusal", PStr "no")])))
           [HostApp.Event (Some (HostApp.AIChunk (PStr "sunny") []))] None).
  right. left. eexists _, _. split; [reflexivity |].
  split; [discriminate | left; reflexivity].
Defined.

(** X24. A chunk that carries tool calls is shown through the tool buffer
    only.  The handler looks at the last tool call: when it has an [id], the
    header with the function's name is appended to the tool text; otherwise
    the function's [arguments] are appended.  The message yielded holds the
    tool text so far, and the text buffer is left as it was. *)
Theorem chat_handler_tool_calls (render : pyval -> string)
    (acc : HostApp.buffers) (content : pyval)
    (additional_kwargs call function : pydict) (calls : list pyval) :
  Dict.lookup "tool_calls" additional_kwargs = Some (PList calls) ->
  last calls = Some (PDict call) ->
  Dict.lookup "function" call = Some (PDict function) ->
  let event :=
    HostApp.Event (Some (HostApp.AIChunk content additional_kwargs)) in
  (forall id name,
     Dict.lookup "id" call = Some id -> truthy id = true ->
     Dict.lookup "name" function = Some (PStr name) ->
     let shown :=
       HostApp.tool_content acc +:+ newline +:+ newline
       +:+ "🛠️ **Tool Call: " +:+ name +:+ "**" +:+ newline in
     HostApp.handle_event render event acc
     = Ok ([HostApp.Chat "assistant" shown],
           HostApp.Buffers (HostApp.text_content acc) shown)) /\
  (forall arguments,
     truthy (Dict.get "id" PNone call) = false ->
     Dict.lookup "arguments" function = Some (PStr arguments) ->
     let shown := HostApp.tool_content acc +:+ arguments in
     HostApp.handle_event render event acc
     = Ok ([HostApp.Chat "assistant" shown],
           HostApp.Buffers (HostApp.text_content acc) shown)).
Proof.
  intros Hcalls Hlast Hfunction event.
  assert (truthy (PDict additional_kwargs) = true) as Hkw
    by by destruct additional_kwargs.
  split.
  - intros id name Hid Hidt Hname shown.
    unfold HostApp.handle_event, event. cbn [HostApp.data].
    rewrite Hkw. unfold Dict.get. rewrite Hcalls. cbn -[last truthy].
    rewrite Hlast. cbn -[last truthy]. unfold Dict.get.
    rewrite Hid, Hfunction. cbn -[last truthy]. rewrite Hidt.
    unfold Dict.get. rewrite Hname. reflexivity.
  - intros arguments Hid Harguments shown.
    unfold HostApp.handle_event, event. cbn [HostApp.data].
    rewrite Hkw. unfold Dict.get in *. rewrite Hcalls. cbn -[last truthy].
    rewrite Hlast. cbn -[last truthy]. unfold Dict.get.
    rewrite Hfunction. cbn -[last truthy]. rewrite Hid.
    unfold Dict.get. rewrite Harguments. reflexivity.
Qed.

Lemma chat_handler_tool_calls_witness :
  HostApp.handle_event (fun _ => "?")
    (HostApp.Event
       (Some (HostApp.AIChunk (PStr "")
                [("tool_calls",
                  PList [PDict [("id", PStr "call_1");
                                ("function",
                                 PDict [("arguments", PStr "");
                                        ("name", PStr "send_agent_message")])]])])))
    (HostApp.Buffers "" "")
  = Ok ([HostApp.Chat "assistant"
           (newline +:+ newline +:+ "🛠️ **Tool Call: send_agent_message**"
            +:+ newline)],
        HostApp.Buffers ""
          (newline +:+ newline +:+ "🛠️ **Tool Call: send_agent_message**"
           +:+ newline)) /\
  HostApp.handle_event (fun _ => "?")
    (HostApp.Event
       (Some (HostApp.AIChunk (PStr "")
                [("tool_calls",
                  PList [PDict [("index", PInt 0); ("id", PNone);
                                ("function",
                                 PDict [("arguments", PStr "{city}");
                                        ("name", PNone)])]])])))
    (HostApp.Buffers "It is " "call: ")
  = Ok ([HostApp.Chat "assistant" "call: {city}"],
        HostApp.Buffers "It is " "call: {city}").
Proof.
  split.
  - apply (proj1 (chat_handler_tool_calls (fun _ => "?")
                    (HostApp.Buffers "" "") (PStr "")
                    [("tool_calls",
                      PList [PDict [("id", PStr "call_1");
                                    ("function",
                                     PDict [("arguments", PStr "");
                                            ("name", PStr "send_agent_message")])]])]
                    [("id", PStr "call_1");
                     ("function",
                      PDict [("arguments", PStr "");
                             ("name", PStr "send_agent_message")])]
                    [("arguments", PStr ""); ("name", PStr "send_agent_message")]
                    [PDict [("id", PStr "call_1");
                            ("function",
                             PDict [("arguments", PStr "");
                                    ("name", PStr "send_agent_message")])]]
                    eq_refl eq_refl eq_refl)
             (PStr "call_1") "send_agent_message"); reflexivity.
  - apply (proj2 (chat_handler_tool_calls (fun _ => "?")
                    (HostApp.Buffers "It is " "call: ") (PStr "")
                    [("tool_calls",
                      PList [PDict [("index", PInt 0); ("id", PNone);
                                    ("function",
                                     PDict [("arguments", PStr "{city}");
                                            ("name", PNone)])]])]
                    [("index", PInt 0); ("id", PNone);
                     ("function",
                      PDict [("arguments", PStr "{city}"); ("name", PNone)])]
                    [("arguments", PStr "{city}"); ("name", PNone)]
                    [PDict [("index", PInt 0); ("id", PNone);
                            ("function",
                             PDict [("arguments", PStr "{city}");
                                    ("name", PNone)])]]
                    eq_refl eq_refl eq_refl)
             "{city}"); reflexivity.
Defined.
